(** * MCP compliance harness: test server and test client

    A shallow embedding of [compliance/python/src/server.py] and
    [compliance/python/src/client.py].

    - Python [int] is [Z], [str] is [string] (the UTF-8 bytes of the text),
      [float] is the binary64 type [PrimFloat.float].
    - The module-level dict [client_states], the per-client state dicts and
      their nested ["files"] dicts are objects of a small heap, addressed by
      locations, so that sharing between identities is a property to prove
      and not an assumption of the model.
    - The MCP session, the transport and [asyncio] are external: the client
      is a tree of protocol actions whose replies come from outside. *)

From Stdlib Require Import ZArith String Ascii Floats DecimalString DecimalPos.
From stdpp Require Import gmap strings list.

Local Open Scope Z_scope.
Local Open Scope string_scope.

(** ** Python builtins used by the two programs *)

Module Py.

(** [str(n)] for an [int]. *)
Definition str_int (n : Z) : string := NilZero.string_of_int (Z.to_int n).

(** [c.lower()] on one byte: only ASCII capitals change.  Bytes of a
    multi-byte UTF-8 sequence are all above 127, so they never become or
    contain an ASCII letter. *)
Definition lower_ascii (c : ascii) : ascii :=
  let n := nat_of_ascii c in
  if (Nat.leb 65 n && Nat.leb n 90)%bool then ascii_of_nat (n + 32) else c.

(** [s.lower()] *)
Fixpoint lower (s : string) : string :=
  match s with
  | EmptyString => EmptyString
  | String c s' => String (lower_ascii c) (lower s')
  end.

(** [s.startswith(p)] *)
Fixpoint startswith (p s : string) : bool :=
  match p, s with
  | EmptyString, _ => true
  | String a p', String b s' => if Ascii.eqb a b then startswith p' s' else false
  | String _ _, EmptyString => false
  end.

(** [needle in haystack] for two [str]. *)
Fixpoint contains (needle haystack : string) : bool :=
  if startswith needle haystack then true
  else match haystack with
       | EmptyString => false
       | String _ rest => contains needle rest
       end.

(** [x in xs] for a list of [str]. *)
Definition in_list (x : string) (xs : list string) : bool :=
  bool_decide (x ∈ xs).

Definition is_space (c : ascii) : bool :=
  let n := nat_of_ascii c in
  ((Nat.leb 9 n && Nat.leb n 13) || Nat.eqb n 32)%bool.

Fixpoint lstrip (s : string) : string :=
  match s with
  | String c s' => if is_space c then lstrip s' else s
  | EmptyString => EmptyString
  end.

Definition digit_of (c : ascii) : option Z :=
  let n := nat_of_ascii c in
  if (Nat.leb 48 n && Nat.leb n 57)%bool then Some (Z.of_nat (n - 48)) else None.

(** The digits of an [int] literal after the sign: digits, single
    underscores between digits, then only white space.  [acc] is the value
    read so far; [after_digit] says that the previous character was a
    digit (so an underscore or the end may follow). *)
Fixpoint int_digits (s : string) (acc : Z) (after_digit : bool) : option Z :=
  match s with
  | EmptyString => if after_digit then Some acc else None
  | String c s' =>
      match digit_of c with
      | Some d => int_digits s' (10 * acc + d) true
      | None =>
          if Ascii.eqb c "_" then
            if after_digit then
              match s' with
              | String c' _ =>
                  match digit_of c' with
                  | Some _ => int_digits s' acc false
                  | None => None
                  end
              | EmptyString => None
              end
            else None
          else if (after_digit && is_space c)%bool then
            if String.eqb (lstrip s') EmptyString then Some acc else None
          else None
      end
  end.

(** [int(s)] for a [str] of ASCII characters; [None] stands for the
    [ValueError] it raises. *)
Definition int_str (s : string) : option Z :=
  match lstrip s with
  | String "-" s' => Z.opp <$> int_digits s' 0 false
  | String "+" s' => int_digits s' 0 false
  | s' => int_digits s' 0 false
  end.

End Py.

(** ** Effects that come from outside a function

    A computation is a finite tree of actions; the reply to each action is
    supplied by the other side (the MCP context of a tool call on the
    server, the session and the operating system on the client). *)

Inductive Prog (E : Type → Type) (A : Type) : Type :=
| Ret (a : A)
| Do {R : Type} (e : E R) (k : R → Prog E A).

Arguments Ret {E A} a.
Arguments Do {E A R} e k.

Fixpoint bind {E A B} (p : Prog E A) (f : A → Prog E B) : Prog E B :=
  match p with
  | Ret a => f a
  | Do e k => Do e (λ r, bind (k r) f)
  end.

Definition perform {E R} (e : E R) : Prog E R := Do e Ret.

#[global] Instance prog_ret {E} : MRet (Prog E) := λ A a, Ret a.
#[global] Instance prog_bind {E} : MBind (Prog E) := λ A B f p, bind p f.

(** One action together with the reply it got. *)
Inductive Event (E : Type → Type) : Type :=
| Ev {R : Type} (e : E R) (r : R).

Arguments Ev {E R} e r.

(** The other side: it answers every action, and may keep a state [W] of its
    own between two actions. *)
Definition Env (E : Type → Type) (W : Type) : Type := ∀ R, E R → W → R * W.

(** [exec p env w]: the events of [p] against the environment [env] started
    in [w], in order, the value [p] returns, and the environment's state at
    the end. *)
Fixpoint exec {E A W} (p : Prog E A) (env : Env E W) (w : W) : list (Event E) * A * W :=
  match p with
  | Ret a => ([], a, w)
  | Do e k =>
      let '(r, w') := env _ e w in
      let '(tr, a, w'') := exec (k r) env w' in
      (Ev e r :: tr, a, w'')
  end.

Definition events {E A W} (p : Prog E A) (env : Env E W) (w : W) : list (Event E) :=
  (exec p env w).1.1.

Definition value {E A W} (p : Prog E A) (env : Env E W) (w : W) : A :=
  (exec p env w).1.2.

(** ** [McpError(ErrorData(code, message))] and the result of a call *)

Module Mcp.

Record ErrorData := { code : Z; message : string }.

End Mcp.

Inductive outcome (A : Type) : Type :=
| Return (a : A)
| Raise (e : Mcp.ErrorData).

Arguments Return {A} a.
Arguments Raise {A} e.

#[global] Instance ErrorData_eq_dec : EqDecision Mcp.ErrorData.
Proof. solve_decision. Defined.

(** The code of the error a call raised, if it raised one. *)
Definition raised_code {A} (o : outcome A) : option Z :=
  match o with
  | Raise e => Some (Mcp.code e)
  | Return _ => None
  end.

Definition raised_message {A} (o : outcome A) : option string :=
  match o with
  | Raise e => Some (Mcp.message e)
  | Return _ => None
  end.

(** * server.py *)

Module Server.

(** *** Objects

    [client_states] maps a client id to a reference to that client's state
    dict; the state dict holds a reference to its ["files"] dict.  A
    handler function object may carry a [_current_client_id] attribute. *)

Record ClientState := {
  trig_allowed : bool;
  special_number : Z;
  files : positive
}.

#[global] Instance ClientState_inhabited : Inhabited ClientState :=
  populate {| trig_allowed := false; special_number := 0; files := 1%positive |}.

Record Memory := {
  client_states : gmap string positive;
  state_dicts : gmap positive ClientState;
  files_dicts : gmap positive (gmap string string);
  current_client_id : gmap string string;
  next_loc : positive
}.

(** Memory when the module has been loaded and the servers created:
    [client_states = {}], and no function has the attribute. *)
Definition startup : Memory := {|
  client_states := ∅;
  state_dicts := ∅;
  files_dicts := ∅;
  current_client_id := ∅;
  next_loc := 1%positive
|}.

(** [getattr(fn, '_current_client_id', 'default')] *)
Definition getattr_client_id (fn : string) (m : Memory) : string :=
  default "default" (current_client_id m !! fn).

(** The dict literal of a new client's ["files"]. *)
Definition initial_files : gmap string string :=
  <["/readme.txt" := "Initial readme content"]>
    (<["/watched.txt" := "Initial watched content"]>
       (<["/test/static.txt" := "Static test file content"]> ∅)).

(** [get_client_state(client_id)]: the reference it returns, and the
    memory after the call.  A first reference evaluates the two dict
    literals, which allocates two new objects. *)
Definition get_client_state (client_id : string) (m : Memory) : positive * Memory :=
  match client_states m !! client_id with
  | Some l => (l, m)
  | None =>
      let lf := next_loc m in
      let ls := Pos.succ lf in
      (ls, {| client_states := <[client_id := ls]> (client_states m);
              state_dicts :=
                <[ls := {| trig_allowed := false; special_number := 42; files := lf |}]>
                  (state_dicts m);
              files_dicts := <[lf := initial_files]> (files_dicts m);
              current_client_id := current_client_id m;
              next_loc := Pos.succ ls |})
  end.

(** [state[...]] for a reference [state]. *)
Definition state_at (m : Memory) (l : positive) : ClientState := state_dicts m !!! l.

(** [state["files"]] as a mapping. *)
Definition files_at (m : Memory) (l : positive) : gmap string string :=
  files_dicts m !!! files (state_at m l).

(** [state["trig_allowed"] = allowed] *)
Definition store_trig_allowed (l : positive) (allowed : bool) (m : Memory) : Memory :=
  let st := state_at m l in
  {| client_states := client_states m;
     state_dicts :=
       <[l := {| trig_allowed := allowed; special_number := special_number st;
                 files := files st |}]> (state_dicts m);
     files_dicts := files_dicts m;
     current_client_id := current_client_id m;
     next_loc := next_loc m |}.

(** [state["special_number"] = value] *)
Definition store_special_number (l : positive) (value : Z) (m : Memory) : Memory :=
  let st := state_at m l in
  {| client_states := client_states m;
     state_dicts :=
       <[l := {| trig_allowed := trig_allowed st; special_number := value;
                 files := files st |}]> (state_dicts m);
     files_dicts := files_dicts m;
     current_client_id := current_client_id m;
     next_loc := next_loc m |}.

(** Replace the contents of the ["files"] dict of the state at [l]. *)
Definition store_files (l : positive) (d : gmap string string) (m : Memory) : Memory :=
  {| client_states := client_states m;
     state_dicts := state_dicts m;
     files_dicts := <[files (state_at m l) := d]> (files_dicts m);
     current_client_id := current_client_id m;
     next_loc := next_loc m |}.

(** *** What a handler asks of its [Context] *)

Inductive FieldType := TInt | TStr | TBool.

(** [class BInput(BaseModel): b: int] *)
Definition BInput_schema : list (string * FieldType) := [("b", TInt)].

Record BInput := { b : Z }.

Inductive ElicitationResult :=
| Accepted (data : BInput)
| Declined
| Cancelled.

Inductive CtxE : Type → Type :=
| Elicit (message : string) (schema : list (string * FieldType)) : CtxE ElicitationResult
| ReportProgress (progress total : Z) (message : string) : CtxE unit.

(** A context with nobody behind it: it declines every elicitation and
    drops the progress reports. *)
Definition unattended : Env CtxE unit :=
  λ R e w,
    match e in CtxE R return R * unit with
    | Elicit _ _ => (Declined, w)
    | ReportProgress _ _ _ => (tt, w)
    end.

(** *** CalcServer *)

Definition add (a b : Z) : Z := a + b.

Definition ambiguous_add (a : Z) : Prog CtxE (outcome Z) :=
  result ← perform
    (Elicit ("Please provide the second number (b) to add to " ++ Py.str_int a ++ ":")
            BInput_schema);
  match result with
  | Accepted data => mret (Return (a + b data))
  | Declined =>
      mret (Raise {| Mcp.code := -32000;
                     Mcp.message := "User declined to provide input for parameter b" |})
  | Cancelled =>
      mret (Raise {| Mcp.code := -32001;
                     Mcp.message := "User cancelled the elicitation request" |})
  end.

Section Handlers.

(** [math.cos], [math.sin], and [float(eval(expression))] with [None]
    when it raises an [Exception]; none of them is code of the server. *)
Variable math_cos math_sin : float → float.
Variable float_eval : string → option float.

Definition cos (x : float) (m : Memory) : outcome float * Memory :=
  let client_id := getattr_client_id "cos" m in
  let '(state, m) := get_client_state client_id m in
  if negb (trig_allowed (state_at m state)) then
    (Raise {| Mcp.code := -32603; Mcp.message := "Trigonometric functions are disabled" |}, m)
  else (Return (math_cos x), m).

Definition sin (x : float) (m : Memory) : outcome float * Memory :=
  let client_id := getattr_client_id "sin" m in
  let '(state, m) := get_client_state client_id m in
  if negb (trig_allowed (state_at m state)) then
    (Raise {| Mcp.code := -32603; Mcp.message := "Trigonometric functions are disabled" |}, m)
  else (Return (math_sin x), m).

Definition set_trig_allowed (allowed : bool) (m : Memory) : outcome string * Memory :=
  let client_id := getattr_client_id "set_trig_allowed" m in
  let '(state, m) := get_client_state client_id m in
  let m := store_trig_allowed state allowed m in
  (Return ("Trigonometric functions " ++ (if allowed then "enabled" else "disabled")), m).

Definition write_special_number (value : Z) (m : Memory) : outcome string * Memory :=
  let client_id := getattr_client_id "write_special_number" m in
  let '(state, m) := get_client_state client_id m in
  let m := store_special_number state value m in
  (Return ("Special number updated to " ++ Py.str_int value), m).

Definition eval_with_sampling (expression : string) : Prog CtxE (outcome float) :=
  perform (ReportProgress 0 100 "Starting evaluation");;
  let result :=
    if String.eqb expression "2 + 2 * 3" then Return 8%float
    else if String.eqb expression "(2 + 3) * (4 + 5)" then Return 45%float
    else match float_eval expression with
         | Some r => Return r
         | None =>
             Raise {| Mcp.code := -32603;
                      Mcp.message := "Cannot evaluate expression: " ++ expression |}
         end in
  match result with
  | Raise e => mret (Raise e)
  | Return result =>
      perform (ReportProgress 100 100 "Evaluation complete");;
      mret (Return result)
  end.

Definition special_number_resource (m : Memory) : outcome string * Memory :=
  let client_id := getattr_client_id "special_number_resource" m in
  let '(state, m) := get_client_state client_id m in
  (Return (Py.str_int (special_number (state_at m state))), m).

Definition example_maths : string :=
  "Help me solve mathematical problems step by step. Show your work and explain each step clearly.".

(** *** FileServer *)

Definition write_file (path content : string) (m : Memory) : outcome string * Memory :=
  let client_id := getattr_client_id "write_file" m in
  let '(state, m) := get_client_state client_id m in
  let m := store_files state (<[path := content]> (files_at m state)) m in
  (Return ("File " ++ path ++ " written successfully"), m).

Definition delete_file (path : string) (m : Memory) : outcome string * Memory :=
  let client_id := getattr_client_id "delete_file" m in
  let '(state, m) := get_client_state client_id m in
  match files_at m state !! path with
  | Some _ =>
      let m := store_files state (delete path (files_at m state)) m in
      (Return ("File " ++ path ++ " deleted successfully"), m)
  | None =>
      (Raise {| Mcp.code := -32602; Mcp.message := "File not found: " ++ path |}, m)
  end.

Definition static_test_file : string := "Static test file content".

Definition file_resource (path : string) (m : Memory) : outcome string * Memory :=
  let client_id := getattr_client_id "file_resource" m in
  let '(state, m) := get_client_state client_id m in
  match files_at m state !! path with
  | Some content => (Return content, m)
  | None =>
      (Raise {| Mcp.code := -32602; Mcp.message := "File not found: " ++ path |}, m)
  end.

Definition code_review : string :=
  "Please review this code for best practices, potential bugs, and improvement opportunities.".

Definition summarize_file_prompt (path : string) (m : Memory) : outcome string * Memory :=
  let client_id := getattr_client_id "summarize_file_prompt" m in
  let '(state, m) := get_client_state client_id m in
  match files_at m state !! path with
  | Some content =>
      (Return ("Please summarize the following file content from " ++ path ++ ":"
               ++ String "010" (String "010" content)), m)
  | None => (Return ("File not found: " ++ path), m)
  end.

(** *** ErrorServer *)

Definition always_error : outcome string :=
  Raise {| Mcp.code := -32602; Mcp.message := "This tool always fails for testing purposes" |}.

Definition not_found_resource : outcome string :=
  Raise {| Mcp.code := -32602; Mcp.message := "This resource is designed to always fail" |}.

(** *** Calls that reach the per-client state

    Every handler that calls [get_client_state], with its arguments. *)

Inductive Call :=
| Cos (x : float)
| Sin (x : float)
| SetTrigAllowed (allowed : bool)
| WriteSpecialNumber (value : Z)
| SpecialNumberResource
| WriteFile (path content : string)
| DeleteFile (path : string)
| FileResource (path : string)
| SummarizeFilePrompt (path : string).

(** The name of the function object whose attribute the handler reads. *)
Definition handler_name (c : Call) : string :=
  match c with
  | Cos _ => "cos"
  | Sin _ => "sin"
  | SetTrigAllowed _ => "set_trig_allowed"
  | WriteSpecialNumber _ => "write_special_number"
  | SpecialNumberResource => "special_number_resource"
  | WriteFile _ _ => "write_file"
  | DeleteFile _ => "delete_file"
  | FileResource _ => "file_resource"
  | SummarizeFilePrompt _ => "summarize_file_prompt"
  end.

(** The client id a call runs under: what its [getattr] line yields. *)
Definition identity_of (c : Call) (m : Memory) : string :=
  getattr_client_id (handler_name c) m.

Inductive Value :=
| VFloat (x : float)
| VStr (s : string).

Definition returning {A} (inj : A → Value) (r : outcome A * Memory) : outcome Value * Memory :=
  match r.1 with
  | Return a => (Return (inj a), r.2)
  | Raise e => (Raise e, r.2)
  end.

(** The registry runs the handler a request names. *)
Definition invoke (c : Call) (m : Memory) : outcome Value * Memory :=
  match c with
  | Cos x => returning VFloat (cos x m)
  | Sin x => returning VFloat (sin x m)
  | SetTrigAllowed allowed => returning VStr (set_trig_allowed allowed m)
  | WriteSpecialNumber value => returning VStr (write_special_number value m)
  | SpecialNumberResource => returning VStr (special_number_resource m)
  | WriteFile path content => returning VStr (write_file path content m)
  | DeleteFile path => returning VStr (delete_file path m)
  | FileResource path => returning VStr (file_resource path m)
  | SummarizeFilePrompt path => returning VStr (summarize_file_prompt path m)
  end.

(** A request as the server receives it: the session (connection) it came
    in on, and the call.  No handler above takes the request context, so the
    session does not reach the handler. *)
Record Request := { session : string; call : Call }.

Definition serve (r : Request) (m : Memory) : outcome Value * Memory :=
  invoke (call r) m.

(** The server handling requests one after the other. *)
Fixpoint serve_all (rs : list Request) (m : Memory) : list (outcome Value) * Memory :=
  match rs with
  | [] => ([], m)
  | r :: rs' =>
      let '(o, m') := serve r m in
      let '(os, m'') := serve_all rs' m' in
      (o :: os, m'')
  end.

(** What one identity can observe of its state. *)
Record View := {
  view_trig_allowed : bool;
  view_special_number : Z;
  view_files : gmap string string
}.

Definition view (client_id : string) (m : Memory) : View :=
  let '(state, m) := get_client_state client_id m in
  {| view_trig_allowed := trig_allowed (state_at m state);
     view_special_number := special_number (state_at m state);
     view_files := files_at m state |}.

End Handlers.

(** *** Shape of the memory

    Two client ids never share a state dict or a ["files"] dict, and every
    object in use lies below the allocation counter. *)
Record wf (m : Memory) : Prop := {
  wf_states_apart : ∀ c1 c2 l,
    client_states m !! c1 = Some l → client_states m !! c2 = Some l → c1 = c2;
  wf_files_apart : ∀ c1 c2 l1 l2,
    client_states m !! c1 = Some l1 → client_states m !! c2 = Some l2 →
    files (state_at m l1) = files (state_at m l2) → c1 = c2;
  wf_allocated : ∀ c l,
    client_states m !! c = Some l →
    (l < next_loc m)%positive ∧ (files (state_at m l) < next_loc m)%positive
}.

(** *** ErrorServer: [timeout]

    Besides its context the tool asks [asyncio] to sleep. *)

Inductive TimeoutE : Type → Type :=
| Ctx {R : Type} (e : CtxE R) : TimeoutE R
| Sleep (seconds : float) : TimeoutE unit.

(** The [for i in range(total_steps)] loop, with [n] iterations left and
    [i] the current index. *)
Fixpoint timeout_steps (n : nat) (i total_steps : Z) : Prog TimeoutE unit :=
  match n with
  | O => mret tt
  | S n' =>
      perform (Ctx (ReportProgress i total_steps
                      ("Step " ++ Py.str_int (i + 1) ++ "/" ++ Py.str_int total_steps)));;
      perform (Sleep 0x1.999999999999ap-4%float);;
      timeout_steps n' (i + 1) total_steps
  end.

Definition timeout (duration : Z) : Prog TimeoutE (outcome string) :=
  let total_steps := duration * 10 in
  timeout_steps (Z.to_nat total_steps) 0 total_steps;;
  perform (Ctx (ReportProgress total_steps total_steps "Completed"));;
  mret (Return ("Completed after " ++ Py.str_int duration ++ " seconds")).

(** *** [main] of the server *)

Inductive TransportKind := stdio | sse | streamable_http.

Record ServerDef := { description : string }.

(** The parsed catalog; the server reads only its ["servers"]. *)
Record ScenariosData := { servers : gmap string ServerDef }.

(** The parsed command line. *)
Record Args := {
  server_name : string;
  transport : TransportKind;
  host : string;
  port : Z;
  scenarios_data : option string
}.

(** The three servers [main] can create. *)
Inductive ServerKind := CalcServer | FileServer | ErrorServer.

(** How [load_scenarios_data] ends. *)
Inductive Loaded :=
| LoadOk (data : ScenariosData)
| FileNotFoundError
| JSONDecodeError (text : string)
| LoadRaised.

(** How [server.run(...)] ends when it does not simply return. *)
Inductive RunRaised :=
| KeyboardInterrupt
| Exception (text : string).

Inductive MainE : Type → Type :=
| LoadScenariosData (path : option string) : MainE Loaded
| PrintErr (text : string) : MainE unit
| Run (server : ServerKind) (kind : TransportKind) (host_port : option (string * Z))
    : MainE (option RunRaised).

(** The [if args.server_name == ...] chain: the server and its description. *)
Definition create_server (name : string) : option (ServerKind * string) :=
  if String.eqb name "CalcServer" then
    Some (CalcServer,
          "A calculator server with basic arithmetic operations, trigonometric functions, resource management, sampling capabilities, and prompt templates")
  else if String.eqb name "FileServer" then
    Some (FileServer,
          "A server that provides file system access with resource templates and subscriptions")
  else if String.eqb name "ErrorServer" then
    Some (ErrorServer, "A server designed to test error handling and edge cases")
  else None.

(** [main], from the parsed arguments on; the value is the exit status of
    the process (0 when [main] returns, 1 when an exception escapes it). *)
Definition main (args : Args) : Prog MainE Z :=
  d ← perform (LoadScenariosData (scenarios_data args));
  match d with
  | FileNotFoundError =>
      perform (PrintErr "Error: Scenarios data file not found");; mret 1
  | JSONDecodeError e =>
      perform (PrintErr ("Error: Invalid JSON in scenarios data: " ++ e));; mret 1
  | LoadRaised => mret 1
  | LoadOk data =>
      match servers data !! server_name args with
      | None =>
          perform (PrintErr ("Error: Server '" ++ server_name args
                             ++ "' not found in scenarios data"));;
          mret 1
      | Some server_def =>
          let expected_desc := description server_def in
          match create_server (server_name args) with
          | None =>
              perform (PrintErr ("Error: Server '" ++ server_name args
                                 ++ "' not implemented"));;
              mret 1
          | Some (server, actual_desc) =>
              (if negb (String.eqb actual_desc expected_desc) then
                 perform (PrintErr ("Warning: Server description mismatch for "
                                    ++ server_name args));;
                 perform (PrintErr ("Expected: " ++ expected_desc));;
                 perform (PrintErr ("Actual: " ++ actual_desc))
               else mret tt);;
              r ← perform
                (Run server (transport args)
                   match transport args with
                   | stdio => None
                   | _ => Some (host args, port args)
                   end);
              match r with
              | None => mret 0
              | Some KeyboardInterrupt =>
                  perform (PrintErr "Server stopped by user");; mret 0
              | Some (Exception e) =>
                  perform (PrintErr ("Error: Server failed to start: " ++ e));; mret 1
              end
          end
      end
  end.


End Server.


(** * client.py *)

Module Client.

(** *** Values of the session library *)

(** A content block of a tool result or of a prompt message; only
    [TextContent] has a [text] attribute. *)
Inductive Content :=
| TextContent (text : string)
| NonTextContent.

Record CallToolResult := { content : list Content; isError : bool }.

(** An entry of [ReadResourceResult.contents]. *)
Inductive ResourceContents :=
| TextResourceContents (text : string)
| BlobResourceContents.

(** A JSON argument of a tool call. *)
Inductive Arg :=
| AInt (n : Z)
| ABool (v : bool)
| AStr (s : string).

(** A value formatted into a message. *)
Inductive PyValue :=
| VInt (n : Z)
| VFloat (x : float)
| VNames (names : list string)
| VContent (c : Content)
| VResult (r : CallToolResult).

(** Exceptions.  An [AssertionError] keeps the literal part of its message
    and the value formatted into it; the texts of the built-in errors are
    not modelled. *)
Inductive Exn :=
| McpError (error : Mcp.ErrorData)
| AssertionError (text : string) (got : option PyValue)
| ValueError
| TypeError
| IndexError
| AttributeError
| FileNotFoundError
| JSONDecodeError (text : string)
| Exception (text : string).

(** A raised exception or a returned value. *)
Inductive try (A : Type) : Type :=
| Raised (e : Exn)
| Ok (a : A).

Arguments Raised {A} e.
Arguments Ok {A} a.

Record ElicitRequestParams := { message : string }.

(** [types.ElicitResult(action=..., content=...)] *)
Inductive ElicitResult :=
| ElicitAccept (content : list (string * Z))
| ElicitDecline
| ElicitCancel.

Record Scenario := { id : Z; description : string; client_ids : list string }.

(** The parsed catalog; the client reads only its ["scenarios"]. *)
Record ScenariosData := { scenarios : list Scenario }.

(** The context manager [create_client_connection] returns. *)
Inductive Connection :=
| stdio_client (command : string) (args : list string)
| sse_client (url : string)
| streamablehttp_client (url : string).

(** A printed line: a text, or a text followed by [str(e)]. *)
Inductive Line :=
| Text (s : string)
| TextExn (s : string) (e : Exn).

(** What the client does to the outside; every action but [Print] and
    [LoadScenariosData] goes to the server side. *)
Inductive ClientE : Type → Type :=
| Print (to_stderr : bool) (line : Line) : ClientE unit
| LoadScenariosData (path : option string) : ClientE (try ScenariosData)
| Enter (c : Connection) : ClientE (try unit)
| OpenSession (elicitation_callback : option (ElicitRequestParams → ElicitResult))
    : ClientE (try unit)
| Initialize : ClientE (try unit)
| CallTool (name : string) (arguments : list (string * Arg)) : ClientE (try CallToolResult)
| Gather (calls : list (string * list (string * Arg))) : ClientE (try (list CallToolResult))
| ListTools : ClientE (try (list string))
| ReadResource (uri : string) : ClientE (try (list ResourceContents))
| GetPrompt (name : string) : ClientE (try (list Content)).

Definition is_protocol_call {R} (e : ClientE R) : bool :=
  match e with
  | Print _ _ | LoadScenariosData _ => false
  | _ => true
  end.

Definition event_is_protocol_call (ev : Event ClientE) : bool :=
  match ev with
  | Ev e _ => is_protocol_call e
  end.

(** *** Elicitation handlers

    The file defines both twice, with the same bodies. *)

Definition elicitation_handler_for_scenario_2 (params : ElicitRequestParams) : ElicitResult :=
  if Py.contains "b" (Py.lower (message params)) then ElicitAccept [("b", 20)]
  else ElicitDecline.

Definition elicitation_handler_for_scenario_24 (params : ElicitRequestParams) : ElicitResult :=
  ElicitDecline.

(** The callback [run_scenario] passes to [ClientSession]. *)
Definition elicitation_callback (scenario_id : Z)
    : option (ElicitRequestParams → ElicitResult) :=
  if (scenario_id =? 2)%Z then Some elicitation_handler_for_scenario_2
  else if (scenario_id =? 24)%Z then Some elicitation_handler_for_scenario_24
  else None.

Section Scenarios.

(** [float(text)] ([None] for its [ValueError]): not code of the client. *)
Variable float_str : string → option float.

(** *** Reading a number out of a tool result *)

(** The [if hasattr(result, 'content') ...] block of scenarios 1 and 2. *)
Definition int_or_object (result : CallToolResult) : try PyValue :=
  match content result with
  | TextContent text :: _ =>
      match Py.int_str text with
      | Some n => Ok (VInt n)
      | None => Raised ValueError
      end
  | NonTextContent :: _ => Ok (VContent NonTextContent)
  | [] => Ok (VResult result)
  end.

(** The same block in scenario 25, where every branch converts. *)
Definition int_of_result (result : CallToolResult) : try Z :=
  match content result with
  | TextContent text :: _ =>
      match Py.int_str text with
      | Some n => Ok n
      | None => Raised ValueError
      end
  | NonTextContent :: _ => Raised TypeError
  | [] => Raised TypeError
  end.

(** The same block in scenario 6, with [float]. *)
Definition float_of_result (result : CallToolResult) : try float :=
  match content result with
  | TextContent text :: _ =>
      match float_str text with
      | Some x => Ok x
      | None => Raised ValueError
      end
  | NonTextContent :: _ => Raised TypeError
  | [] => Raised TypeError
  end.

(** [assert value == n, f"Expected {n}, got {value}"] *)
Definition assert_int (n : Z) (value : PyValue) : try unit :=
  match value with
  | VInt v => if (v =? n)%Z then Ok tt
              else Raised (AssertionError ("Expected " ++ Py.str_int n ++ ", got") (Some value))
  | _ => Raised (AssertionError ("Expected " ++ Py.str_int n ++ ", got") (Some value))
  end.

(** [print(...); return True] and the [except Exception as e] arm. *)
Definition passed (text : string) : Prog ClientE bool :=
  perform (Print false (Text text));; mret true.

Definition failed (text : string) (e : Exn) : Prog ClientE bool :=
  perform (Print true (TextExn text e));; mret false.

Definition failed_text (text : string) : Prog ClientE bool :=
  perform (Print true (Text text));; mret false.

(** *** The scenarios *)

Definition execute_scenario_1 : Prog ClientE bool :=
  r ← perform (CallTool "add" [("a", AInt 10); ("b", AInt 20)]);
  match r with
  | Raised e => failed "✗ Scenario 1 failed: " e
  | Ok result =>
      match int_or_object result with
      | Raised e => failed "✗ Scenario 1 failed: " e
      | Ok value =>
          match assert_int 30 value with
          | Raised e => failed "✗ Scenario 1 failed: " e
          | Ok _ => passed "✓ Scenario 1 passed"
          end
      end
  end.

Definition execute_scenario_2 : Prog ClientE bool :=
  r ← perform (CallTool "ambiguous_add" [("a", AInt 10)]);
  match r with
  | Raised e => failed "✗ Scenario 2 failed: " e
  | Ok result =>
      match int_or_object result with
      | Raised e => failed "✗ Scenario 2 failed: " e
      | Ok value =>
          match assert_int 30 value with
          | Raised e => failed "✗ Scenario 2 failed: " e
          | Ok _ => passed "✓ Scenario 2 passed"
          end
      end
  end.

Definition execute_scenario_3 (client_id : string) : Prog ClientE bool :=
  let fail := failed ("✗ Scenario 3 " ++ client_id ++ " failed: ") in
  if String.eqb client_id "client1" then
    r ← perform (CallTool "set_trig_allowed" [("allowed", ABool true)]);
    match r with
    | Raised e => fail e
    | Ok _ =>
        t ← perform ListTools;
        match t with
        | Raised e => fail e
        | Ok tool_names =>
            if (Py.in_list "cos" tool_names && Py.in_list "sin" tool_names)%bool then
              perform (Print false (Text "✓ Scenario 3 client1 passed"));; mret true
            else
              fail (AssertionError "Expected cos and sin in tools, got"
                      (Some (VNames tool_names)))
        end
    end
  else if String.eqb client_id "client2" then
    t ← perform ListTools;
    match t with
    | Raised e => fail e
    | Ok tool_names =>
        if (negb (Py.in_list "cos" tool_names) && negb (Py.in_list "sin" tool_names))%bool then
          perform (Print false (Text "✓ Scenario 3 client2 passed"));; mret true
        else
          fail (AssertionError "Expected cos and sin NOT in tools, got"
                  (Some (VNames tool_names)))
    end
  else mret true.

(** [int(r.contents[0].text)] *)
Definition resource_int (contents : list ResourceContents) : try Z :=
  match contents with
  | [] => Raised IndexError
  | BlobResourceContents :: _ => Raised AttributeError
  | TextResourceContents text :: _ =>
      match Py.int_str text with
      | Some n => Ok n
      | None => Raised ValueError
      end
  end.

Definition execute_scenario_4 : Prog ClientE bool :=
  let fail := failed "✗ Scenario 4 failed: " in
  r ← perform (ReadResource "resource://special-number");
  match r with
  | Raised e => fail e
  | Ok initial =>
      match resource_int initial with
      | Raised e => fail e
      | Ok initial_value =>
          if negb (initial_value =? 42)%Z then
            fail (AssertionError "Expected initial value 42, got" (Some (VInt initial_value)))
          else
            w ← perform (CallTool "write_special_number" [("value", AInt 100)]);
            match w with
            | Raised e => fail e
            | Ok _ =>
                r' ← perform (ReadResource "resource://special-number");
                match r' with
                | Raised e => fail e
                | Ok updated =>
                    match resource_int updated with
                    | Raised e => fail e
                    | Ok updated_value =>
                        if negb (updated_value =? 100)%Z then
                          fail (AssertionError "Expected updated value 100, got"
                                  (Some (VInt updated_value)))
                        else passed "✓ Scenario 4 passed"
                    end
                end
            end
      end
  end.

Definition execute_scenario_5 : Prog ClientE bool :=
  let fail := failed "✗ Scenario 5 failed: " in
  r ← perform (GetPrompt "example-maths");
  match r with
  | Raised e => fail e
  | Ok messages =>
      match messages with
      | [] => fail (AssertionError "Expected prompt messages" None)
      | NonTextContent :: _ => fail AttributeError
      | TextContent message_text :: _ =>
          if Py.contains "mathematical" (Py.lower message_text) then
            passed "✓ Scenario 5 passed"
          else
            fail (AssertionError
                    ("Expected mathematical content in prompt, got: " ++ message_text) None)
      end
  end.

Definition execute_scenario_6 : Prog ClientE bool :=
  let fail := failed "✗ Scenario 6 failed: " in
  r ← perform (CallTool "eval_with_sampling" [("expression", AStr "2 + 2 * 3")]);
  match r with
  | Raised e => fail e
  | Ok result =>
      match float_of_result result with
      | Raised e => fail e
      | Ok value =>
          if PrimFloat.eqb value 8%float then passed "✓ Scenario 6 passed"
          else fail (AssertionError "Expected 8.0, got" (Some (VFloat value)))
      end
  end.

Definition execute_scenario_24 : Prog ClientE bool :=
  r ← perform (CallTool "ambiguous_add" [("a", AInt 10)]);
  match r with
  | Ok result =>
      if isError result then
        match content result with
        | TextContent error_text :: _ =>
            if Py.contains "declined" (Py.lower error_text) then
              passed "✓ Scenario 24 passed"
            else
              failed_text ("✗ Scenario 24 failed: Wrong error message: " ++ error_text)
        | NonTextContent :: _ =>
            failed "✗ Scenario 24 failed: Unexpected error: " AttributeError
        | [] => passed "✓ Scenario 24 passed (error result with no content)"
        end
      else failed_text "✗ Scenario 24 failed: Expected error but got success"
  | Raised (McpError error) =>
      if ((Mcp.code error =? -32000)%Z
          || Py.contains "declined" (Py.lower (Mcp.message error)))%bool then
        passed "✓ Scenario 24 passed"
      else failed "✗ Scenario 24 failed: Wrong error type: " (McpError error)
  | Raised e => failed "✗ Scenario 24 failed: Unexpected error: " e
  end.

(** The [for i, result in enumerate(results)] loop: [expected] is
    [expected_results[i:]]. *)
Fixpoint check_results (results : list CallToolResult) (expected : list Z) : try unit :=
  match results with
  | [] => Ok tt
  | result :: results' =>
      match int_of_result result with
      | Raised e => Raised e
      | Ok value =>
          match expected with
          | [] => Raised IndexError
          | x :: expected' =>
              if (value =? x)%Z then check_results results' expected'
              else Raised (AssertionError ("Expected " ++ Py.str_int x ++ ", got")
                             (Some (VInt value)))
          end
      end
  end.

Definition execute_scenario_25 : Prog ClientE bool :=
  let tasks := [("add", [("a", AInt 1); ("b", AInt 2)]);
                ("add", [("a", AInt 3); ("b", AInt 4)]);
                ("add", [("a", AInt 5); ("b", AInt 6)])] in
  r ← perform (Gather tasks);
  match r with
  | Raised e => failed "✗ Scenario 25 failed: " e
  | Ok results =>
      match check_results results [3; 7; 11] with
      | Raised e => failed "✗ Scenario 25 failed: " e
      | Ok _ => passed "✓ Scenario 25 passed"
      end
  end.

(** *** Running a scenario *)

Definition create_client_connection (transport : string) (args : list string)
    : try Connection :=
  if String.eqb transport "stdio" then
    match args with
    | [] => Raised (Exception "stdio transport requires server command")
    | command :: rest => Ok (stdio_client command rest)
    end
  else if String.eqb transport "sse" then
    match args with
    | [] => Raised (Exception "sse transport requires server URL")
    | url :: _ => Ok (sse_client url)
    end
  else if String.eqb transport "streamable-http" then
    match args with
    | [] => Raised (Exception "streamable-http transport requires server URL")
    | url :: _ => Ok (streamablehttp_client url)
    end
  else Raised (Exception ("Unsupported transport: " ++ transport)).

(** The [for s in scenarios_data["scenarios"]] search. *)
Definition find_scenario (scenario_id : Z) (scenarios_data : ScenariosData) : option Scenario :=
  find (λ s, (id s =? scenario_id)%Z) (scenarios scenarios_data).

(** The [if scenario_id == ...] chain inside the session. *)
Definition dispatch (scenario_id : Z) (client_id : string) : Prog ClientE bool :=
  if (scenario_id =? 1)%Z then execute_scenario_1
  else if (scenario_id =? 2)%Z then execute_scenario_2
  else if (scenario_id =? 3)%Z then execute_scenario_3 client_id
  else if (scenario_id =? 4)%Z then execute_scenario_4
  else if (scenario_id =? 5)%Z then execute_scenario_5
  else if (scenario_id =? 6)%Z then execute_scenario_6
  else if (scenario_id =? 24)%Z then execute_scenario_24
  else if (scenario_id =? 25)%Z then execute_scenario_25
  else failed_text ("Error: Scenario " ++ Py.str_int scenario_id ++ " not implemented").

(** [run_scenario]; it raises only when [server_desc] is empty, at
    [server_desc[0]], which is outside its [try]. *)
Definition run_scenario (scenario_id : Z) (client_id : string) (server_desc : list string)
    (scenarios_data : ScenariosData) : Prog ClientE (try bool) :=
  match find_scenario scenario_id scenarios_data with
  | None =>
      perform (Print true (Text ("Error: Scenario " ++ Py.str_int scenario_id ++ " not found")));;
      mret (Ok false)
  | Some scenario =>
      if negb (Py.in_list client_id (client_ids scenario)) then
        perform (Print true (Text ("Error: Client ID '" ++ client_id ++ "' not in scenario "
                                   ++ Py.str_int scenario_id)));;
        mret (Ok false)
      else
        perform (Print false (Text ("Running scenario " ++ Py.str_int scenario_id ++ ": "
                                    ++ description scenario)));;
        match server_desc with
        | [] => mret (Raised IndexError)
        | transport :: transport_args =>
            let fail e :=
              perform (Print true (TextExn "Error: Failed to connect or execute scenario: " e));;
              mret (Ok false) in
            match create_client_connection transport transport_args with
            | Raised e => fail e
            | Ok connection =>
                c ← perform (Enter connection);
                match c with
                | Raised e => fail e
                | Ok _ =>
                    s ← perform (OpenSession (elicitation_callback scenario_id));
                    match s with
                    | Raised e => fail e
                    | Ok _ =>
                        i ← perform Initialize;
                        match i with
                        | Raised e => fail e
                        | Ok _ => success ← dispatch scenario_id client_id; mret (Ok success)
                        end
                    end
                end
            end
        end
  end.

(** The parsed command line. *)
Record Args := {
  arg_scenario_id : Z;
  arg_id : string;
  arg_scenarios_data : option string;
  arg_server_desc : list string
}.

(** [main], from the parsed arguments on; the value is the exit status of
    the process (1 as well when an exception escapes [main]). *)
Definition main (args : Args) : Prog ClientE Z :=
  d ← perform (LoadScenariosData (arg_scenarios_data args));
  match d with
  | Raised FileNotFoundError =>
      perform (Print true (Text "Error: Scenarios data file not found"));; mret 1
  | Raised (JSONDecodeError text) =>
      perform (Print true (TextExn "Error: Invalid JSON in scenarios data: "
                             (JSONDecodeError text)));;
      mret 1
  | Raised _ => mret 1
  | Ok scenarios_data =>
      match find_scenario (arg_scenario_id args) scenarios_data with
      | None =>
          perform (Print true (Text ("Error: Scenario " ++ Py.str_int (arg_scenario_id args)
                                     ++ " not found")));;
          mret 1
      | Some scenario =>
          perform (Print false (Text ("Executing scenario " ++ Py.str_int (arg_scenario_id args)
                                      ++ ": " ++ description scenario)));;
          r ← run_scenario (arg_scenario_id args) (arg_id args) (arg_server_desc args)
                scenarios_data;
          match r with
          | Ok success => mret (if success : bool then 0 else 1)
          | Raised e =>
              perform (Print true (TextExn "Error: Client failed: " e));; mret 1
          end
      end
  end.

End Scenarios.

(** An environment for running the client by hand: the catalog loads, the
    connection and the session open, [gather] is answered with [gathered],
    single tool calls fail, and lists come back empty. *)
Definition scripted (catalog : ScenariosData) (gathered : list CallToolResult)
    : Env ClientE unit :=
  λ R e w,
    match e in ClientE R return R * unit with
    | Print _ _ => (tt, w)
    | LoadScenariosData _ => (Ok catalog, w)
    | Enter _ => (Ok tt, w)
    | OpenSession _ => (Ok tt, w)
    | Initialize => (Ok tt, w)
    | CallTool _ _ => (Raised (Exception "no server"), w)
    | Gather _ => (Ok gathered, w)
    | ListTools => (Ok [], w)
    | ReadResource _ => (Ok [], w)
    | GetPrompt _ => (Ok [], w)
    end.

(** The stream a printed line went to ([true] for stderr), for an event
    that is a [Print]. *)
Definition printed_to (ev : Event ClientE) : option bool :=
  match ev with
  | Ev e _ => match e with Print to_stderr _ => Some to_stderr | _ => None end
  end.

(** A run reports its result: its last event is a printed line, on stderr
    when the result is [False] and on stdout when it is [True]. *)
Definition reported (trace : list (Event ClientE)) (success : bool) : Prop :=
  ∃ ev, last trace = Some ev ∧ printed_to ev = Some (negb success).

End Client.


(** * Requests in flight

    The session library and [asyncio.gather] are not under src/.  Section 5
    of the specification gives their contract: calls in flight may complete
    in any order, and the result list handed to the caller is put back in
    request issuance order by the transport's correlation of responses with
    requests.  Here a request carries the id the session gave it, a response
    carries the id of its request, a response is handed to the waiter
    registered under its id, and [gather] reads the waiters in the order of
    its arguments. *)

Module Transport.

Record Request := {
  request_id : nat;
  tool : string;
  arguments : list (string * Client.Arg)
}.

Record Response := {
  response_id : nat;
  result : Client.CallToolResult
}.

(** Modelled from the spec: the session numbers the calls in the order they
    are issued (its request ids, the transport's correlation mechanism). *)
Fixpoint issue (next_id : nat) (calls : list (string * list (string * Client.Arg)))
    : list Request :=
  match calls with
  | [] => []
  | (name, args) :: rest =>
      {| request_id := next_id; tool := name; arguments := args |} :: issue (S next_id) rest
  end.

Definition int_argument (name : string) (args : list (string * Client.Arg)) : option Z :=
  match find (λ kv, String.eqb kv.1 name) args with
  | Some (_, Client.AInt n) => Some n
  | _ => None
  end.

(** Modelled from the spec: the server's answer to one request on the [add]
    tool, which is [Server.add] on the two arguments with the sum returned as
    a text block, under the id of the request. *)
Definition call_add (r : Request) : Response :=
  {| response_id := request_id r;
     result :=
       match int_argument "a" (arguments r), int_argument "b" (arguments r) with
       | Some a, Some b =>
           {| Client.content := [Client.TextContent (Py.str_int (Server.add a b))];
              Client.isError := false |}
       | _, _ =>
           {| Client.content := [Client.TextContent "Invalid arguments"];
              Client.isError := true |}
       end |}.

(** Modelled from the spec: the server completes the requests in the order
    [completion], any order, and its responses leave in that order. *)
Definition complete (completion : list Request) : list Response :=
  call_add <$> completion.

(** Modelled from the spec: each response, as it arrives, goes to the waiter
    registered under its id. *)
Fixpoint deliver (responses : list Response) (waiters : gmap nat Client.CallToolResult)
    : gmap nat Client.CallToolResult :=
  match responses with
  | [] => waiters
  | r :: rest => deliver rest (<[response_id r := result r]> waiters)
  end.

(** Modelled from the spec: [asyncio.gather] hands back the results of the
    awaited calls by position, that is in issuance order. *)
Definition gather (requests : list Request) (waiters : gmap nat Client.CallToolResult)
    : option (list Client.CallToolResult) :=
  mapM (λ r, waiters !! request_id r) requests.

(** The three calls of scenario 25. *)
Definition three_adds : list (string * list (string * Client.Arg)) :=
  [("add", [("a", Client.AInt 1); ("b", Client.AInt 2)]);
   ("add", [("a", Client.AInt 3); ("b", Client.AInt 4)]);
   ("add", [("a", Client.AInt 5); ("b", Client.AInt 6)])].

End Transport.


(** * Python builtins on examples *)

Example str_int_examples :
  Py.str_int 0 = "0" ∧ Py.str_int 42 = "42" ∧ Py.str_int (-15) = "-15".
Proof. repeat split. Qed.

Example int_str_examples :
  Py.int_str "30" = Some 30 ∧ Py.int_str " -12 " = Some (-12)
  ∧ Py.int_str "+007" = Some 7 ∧ Py.int_str "1_000" = Some 1000
  ∧ Py.int_str "" = None ∧ Py.int_str "3 4" = None ∧ Py.int_str "1__0" = None
  ∧ Py.int_str "8.0" = None.
Proof. repeat split. Qed.

Example contains_examples :
  Py.contains "declined" (Py.lower "User Declined to answer") = true
  ∧ Py.contains "b" (Py.lower "How many?") = false
  ∧ Py.contains "" "" = true.
Proof. repeat split. Qed.

(** * Properties of the server *)

Section ServerFacts.

Import Server.

Implicit Types (m : Memory) (q : Call) (l : positive).

Variable math_cos math_sin : float → float.

Abbreviation invoke := (Server.invoke math_cos math_sin).
Abbreviation serve := (Server.serve math_cos math_sin).
Abbreviation serve_all := (Server.serve_all math_cos math_sin).

(** ** The state store *)

Lemma get_client_state_attrs client_id m :
  current_client_id (get_client_state client_id m).2 = current_client_id m.
Proof. unfold get_client_state. by destruct (client_states m !! client_id). Qed.

Lemma get_client_state_registered client_id m :
  client_states (get_client_state client_id m).2 !! client_id
  = Some (get_client_state client_id m).1.
Proof.
  unfold get_client_state.
  destruct (client_states m !! client_id) eqn:E; simpl; [done|].
  by rewrite lookup_insert_eq.
Qed.

Lemma get_client_state_known client_id m l :
  client_states m !! client_id = Some l → get_client_state client_id m = (l, m).
Proof. intros E. unfold get_client_state. by rewrite E. Qed.

Lemma get_client_state_again client_id m :
  get_client_state client_id (get_client_state client_id m).2
  = get_client_state client_id m.
Proof.
  pose proof (get_client_state_registered client_id m) as H.
  rewrite (get_client_state_known _ _ _ H). by destruct (get_client_state client_id m).
Qed.

(** The view of an identity that has no state yet is the default state. *)
Lemma view_fresh client_id m :
  client_states m !! client_id = None →
  view client_id m
  = {| view_trig_allowed := false; view_special_number := 42; view_files := initial_files |}.
Proof.
  intros E. unfold view, get_client_state. rewrite E.
  unfold files_at, state_at. simpl.
  rewrite lookup_total_insert_eq. simpl. by rewrite lookup_total_insert_eq.
Qed.

Lemma view_known client_id m l :
  client_states m !! client_id = Some l →
  view client_id m
  = {| view_trig_allowed := trig_allowed (state_at m l);
       view_special_number := special_number (state_at m l);
       view_files := files_at m l |}.
Proof. intros E. unfold view. by rewrite (get_client_state_known _ _ _ E). Qed.

Lemma view_get_client_state client_id m :
  view client_id (get_client_state client_id m).2 = view client_id m.
Proof. unfold view. by rewrite get_client_state_again. Qed.

(** ** The shape of the memory is an invariant *)

Lemma wf_startup attrs :
  wf {| client_states := ∅; state_dicts := ∅; files_dicts := ∅;
        current_client_id := attrs; next_loc := 1%positive |}.
Proof. split; simpl; intros; simplify_map_eq. Qed.

Lemma wf_get_client_state client_id m :
  wf m → wf (get_client_state client_id m).2.
Proof.
  intros [Hs Hf Ha]. unfold get_client_state.
  destruct (client_states m !! client_id) eqn:E; simpl; [by split|].
  assert (Hold : ∀ c l, client_states m !! c = Some l →
            l ≠ Pos.succ (next_loc m) ∧ files (state_at m l) ≠ next_loc m
            ∧ l ≠ next_loc m).
  { intros c l Hc. destruct (Ha c l Hc). lia. }
  split; unfold state_at; simpl.
  - intros c1 c2 l. rewrite !lookup_insert.
    repeat case_decide; subst; try done; intros H1 H2; simplify_eq.
    + destruct (Hold _ _ H2) as (? & _). done.
    + destruct (Hold _ _ H1) as (? & _). done.
    + eauto.
  - intros c1 c2 l1 l2. rewrite !lookup_insert.
    repeat case_decide; subst; try done; intros H1 H2; simplify_eq.
    + destruct (Hold _ _ H2) as (? & ? & _).
      rewrite lookup_total_insert_eq, lookup_total_insert_ne by done. simpl.
      intros Heq. symmetry in Heq. done.
    + destruct (Hold _ _ H1) as (? & ? & _).
      rewrite lookup_total_insert_eq, lookup_total_insert_ne by done. simpl. done.
    + destruct (Hold _ _ H1) as (? & _). destruct (Hold _ _ H2) as (? & _).
      rewrite !lookup_total_insert_ne by done. apply Hf; done.
  - intros c l. rewrite lookup_insert.
    case_decide; subst; intros H1; simplify_eq.
    + rewrite lookup_total_insert_eq. simpl. lia.
    + destruct (Hold _ _ H1) as (? & _). destruct (Ha _ _ H1).
      rewrite lookup_total_insert_ne by done. unfold state_at in *. lia.
Qed.






(** ** Frame: what a step on one identity leaves alone *)

(** Creating the state of one identity changes no view, its own included. *)
Lemma view_get_client_state_any c1 c2 m :
  wf m → view c2 (get_client_state c1 m).2 = view c2 m.
Proof.
  intros Hwf.
  destruct (decide (c1 = c2)) as [->|Hne]; [apply view_get_client_state|].
  destruct (client_states m !! c1) as [l1|] eqn:E1.
  { by rewrite (get_client_state_known _ _ _ E1). }
  destruct (client_states m !! c2) as [l2|] eqn:E2.
  - destruct (wf_allocated m Hwf c2 l2 E2) as [Hl Hfl].
    rewrite (view_known c2 m l2 E2).
    unfold get_client_state. rewrite E1. simpl.
    erewrite view_known; [|simpl; rewrite lookup_insert_ne; [exact E2|done]].
    unfold files_at, state_at in *. simpl.
    rewrite (lookup_total_insert_ne (state_dicts m) (Pos.succ (next_loc m)) l2) by lia.
    rewrite lookup_total_insert_ne; [done|lia].
  - rewrite (view_fresh c2 m E2). apply view_fresh.
    unfold get_client_state. rewrite E1. simpl. by rewrite lookup_insert_ne.
Qed.

(** A view depends on the memory only through these three lookups. *)
Lemma view_ext c m m' :
  client_states m' = client_states m →
  next_loc m' = next_loc m →
  (∀ l, client_states m !! c = Some l →
     state_at m' l = state_at m l ∧ files_at m' l = files_at m l) →
  view c m' = view c m.
Proof.
  intros Hcs Hn Hl.
  destruct (client_states m !! c) as [l|] eqn:E.
  - destruct (Hl l eq_refl) as [Hst Hfi].
    rewrite (view_known c m l E), (view_known c m' l) by (by rewrite Hcs).
    by rewrite Hst, Hfi.
  - by rewrite !view_fresh by (by rewrite ?Hcs).
Qed.

Lemma view_store_trig_allowed_other c1 c2 l1 allowed m :
  wf m → client_states m !! c1 = Some l1 → c1 ≠ c2 →
  view c2 (store_trig_allowed l1 allowed m) = view c2 m.
Proof.
  intros Hwf E1 Hne. apply view_ext; [done..|].
  intros l2 E2.
  assert (l1 ≠ l2) by (intros ->; apply Hne; eapply wf_states_apart; eauto).
  unfold files_at, state_at, store_trig_allowed. simpl.
  by rewrite !lookup_total_insert_ne.
Qed.

Lemma view_store_special_number_other c1 c2 l1 value m :
  wf m → client_states m !! c1 = Some l1 → c1 ≠ c2 →
  view c2 (store_special_number l1 value m) = view c2 m.
Proof.
  intros Hwf E1 Hne. apply view_ext; [done..|].
  intros l2 E2.
  assert (l1 ≠ l2) by (intros ->; apply Hne; eapply wf_states_apart; eauto).
  unfold files_at, state_at, store_special_number. simpl.
  by rewrite !lookup_total_insert_ne.
Qed.

Lemma view_store_files_other c1 c2 l1 d m :
  wf m → client_states m !! c1 = Some l1 → c1 ≠ c2 →
  view c2 (store_files l1 d m) = view c2 m.
Proof.
  intros Hwf E1 Hne. apply view_ext; [done..|].
  intros l2 E2. split; [done|].
  assert (files (state_at m l1) ≠ files (state_at m l2)).
  { intros Heq. apply Hne. eapply wf_files_apart; eauto. }
  unfold files_at, store_files, state_at in *. simpl.
  by rewrite lookup_total_insert_ne.
Qed.

(** ** What a handler's first two lines establish *)

Lemma get_client_state_spec client_id m l m1 :
  get_client_state client_id m = (l, m1) →
  client_states m1 !! client_id = Some l
  ∧ current_client_id m1 = current_client_id m
  ∧ view client_id m
    = {| view_trig_allowed := trig_allowed (state_at m1 l);
         view_special_number := special_number (state_at m1 l);
         view_files := files_at m1 l |}
  ∧ (wf m → wf m1 ∧ ∀ c2, view c2 m1 = view c2 m).
Proof.
  intros E.
  pose proof (get_client_state_registered client_id m) as Hreg.
  pose proof (get_client_state_attrs client_id m) as Hattr.
  pose proof (wf_get_client_state client_id m) as Hwf.
  pose proof (λ H c2, view_get_client_state_any client_id c2 m H) as Hview.
  pose proof (view_get_client_state client_id m) as Hown.
  rewrite E in *. simpl in *.
  split; [done|]. split; [done|]. split; [|intros H; split; auto].
  rewrite <- Hown. by apply view_known.
Qed.

Ltac enter_handler m l m1 :=
  match goal with
  | |- context [get_client_state ?c m] =>
      let E := fresh "E" in
      let Hreg := fresh "Hreg" in
      let Hattr := fresh "Hattr" in
      let Hview := fresh "Hview" in
      let Hframe := fresh "Hframe" in
      destruct (get_client_state c m) as [l m1] eqn:E;
      destruct (get_client_state_spec _ _ _ _ E) as (Hreg & Hattr & Hview & Hframe)
  end.

Lemma invoke_attrs q m :
  current_client_id (invoke q m).2 = current_client_id m.
Proof.
  destruct q; simpl;
    unfold returning, cos, sin, set_trig_allowed, write_special_number,
      special_number_resource, write_file, delete_file, file_resource,
      summarize_file_prompt;
    enter_handler m l m1; simpl;
    repeat case_match; simpl; done.
Qed.

Lemma identity_of_invoke q q' m :
  identity_of q' (invoke q m).2 = identity_of q' m.
Proof. unfold identity_of, getattr_client_id. by rewrite invoke_attrs. Qed.


(** A call under one identity changes the view of no other identity. *)
Lemma invoke_view_other q m c2 :
  wf m → identity_of q m ≠ c2 → view c2 (invoke q m).2 = view c2 m.
Proof.
  intros Hwf Hne. unfold identity_of in Hne.
  destruct q; simpl in *;
    unfold returning, cos, sin, set_trig_allowed, write_special_number,
      special_number_resource, write_file, delete_file, file_resource,
      summarize_file_prompt;
    enter_handler m l m1; destruct (Hframe Hwf) as [Hwf1 Hsame]; simpl;
    repeat case_match; simpl;
    rewrite <- (Hsame c2);
    eauto using view_store_trig_allowed_other, view_store_special_number_other,
      view_store_files_other.
Qed.

(** The outcome of a call is a function of the view of its identity. *)
Lemma invoke_outcome_of_view q m m' :
  view (identity_of q m) m = view (identity_of q m') m' →
  (invoke q m).1 = (invoke q m').1.
Proof.
  unfold identity_of.
  destruct q; simpl;
    unfold returning, cos, sin, set_trig_allowed, write_special_number,
      special_number_resource, write_file, delete_file, file_resource,
      summarize_file_prompt;
    enter_handler m l m1; enter_handler m' l' m1';
    rewrite Hview, Hview0; intros [= Ht Hn Hf]; simpl;
    rewrite ?Ht, ?Hn, ?Hf; repeat case_match; simplify_eq/=; done.
Qed.

(** ** What a handler does to the view of its own identity *)

Lemma view_store_trig_allowed_own c l allowed m :
  client_states m !! c = Some l →
  view c (store_trig_allowed l allowed m)
  = {| view_trig_allowed := allowed;
       view_special_number := special_number (state_at m l);
       view_files := files_at m l |}.
Proof.
  intros E. rewrite (view_known c _ l) by done.
  unfold files_at, state_at, store_trig_allowed. simpl.
  by rewrite lookup_total_insert_eq.
Qed.

Lemma view_store_special_number_own c l value m :
  client_states m !! c = Some l →
  view c (store_special_number l value m)
  = {| view_trig_allowed := trig_allowed (state_at m l);
       view_special_number := value;
       view_files := files_at m l |}.
Proof.
  intros E. rewrite (view_known c _ l) by done.
  unfold files_at, state_at, store_special_number. simpl.
  by rewrite lookup_total_insert_eq.
Qed.

Lemma view_store_files_own c l d m :
  client_states m !! c = Some l →
  view c (store_files l d m)
  = {| view_trig_allowed := trig_allowed (state_at m l);
       view_special_number := special_number (state_at m l);
       view_files := d |}.
Proof.
  intros E. rewrite (view_known c _ l) by done.
  unfold files_at, state_at, store_files. simpl.
  by rewrite lookup_total_insert_eq.
Qed.

Lemma cos_outcome x m :
  (cos math_cos x m).1
  = if view_trig_allowed (view (getattr_client_id "cos" m) m) then Return (math_cos x)
    else Raise {| Mcp.code := -32603;
                  Mcp.message := "Trigonometric functions are disabled" |}.
Proof.
  unfold cos. enter_handler m l m1. rewrite Hview. simpl.
  by destruct (trig_allowed (state_at m1 l)).
Qed.

Lemma sin_outcome x m :
  (sin math_sin x m).1
  = if view_trig_allowed (view (getattr_client_id "sin" m) m) then Return (math_sin x)
    else Raise {| Mcp.code := -32603;
                  Mcp.message := "Trigonometric functions are disabled" |}.
Proof.
  unfold sin. enter_handler m l m1. rewrite Hview. simpl.
  by destruct (trig_allowed (state_at m1 l)).
Qed.

Lemma set_trig_allowed_view allowed m :
  let c := getattr_client_id "set_trig_allowed" m in
  view c (set_trig_allowed allowed m).2
  = {| view_trig_allowed := allowed;
       view_special_number := view_special_number (view c m);
       view_files := view_files (view c m) |}.
Proof using Type.
  unfold set_trig_allowed. enter_handler m l m1. simpl.
  rewrite Hview. simpl. by apply view_store_trig_allowed_own.
Qed.

Lemma write_special_number_view value m :
  let c := getattr_client_id "write_special_number" m in
  view c (write_special_number value m).2
  = {| view_trig_allowed := view_trig_allowed (view c m);
       view_special_number := value;
       view_files := view_files (view c m) |}.
Proof using Type.
  unfold write_special_number. enter_handler m l m1. simpl.
  rewrite Hview. simpl. by apply view_store_special_number_own.
Qed.

Lemma special_number_resource_outcome m :
  (special_number_resource m).1
  = Return (Py.str_int
              (view_special_number (view (getattr_client_id "special_number_resource" m) m))).
Proof using Type.
  unfold special_number_resource. enter_handler m l m1. by rewrite Hview.
Qed.

Lemma delete_file_outcome path m :
  (delete_file path m).1
  = match view_files (view (getattr_client_id "delete_file" m) m) !! path with
    | Some _ => Return ("File " ++ path ++ " deleted successfully")
    | None => Raise {| Mcp.code := -32602; Mcp.message := "File not found: " ++ path |}
    end.
Proof using Type.
  unfold delete_file. enter_handler m l m1. rewrite Hview. simpl.
  by destruct (files_at m1 l !! path).
Qed.

Lemma delete_file_view path m :
  let c := getattr_client_id "delete_file" m in
  view c (delete_file path m).2
  = {| view_trig_allowed := view_trig_allowed (view c m);
       view_special_number := view_special_number (view c m);
       view_files := delete path (view_files (view c m)) |}.
Proof using Type.
  unfold delete_file. enter_handler m l m1. rewrite Hview. simpl.
  destruct (files_at m1 l !! path) eqn:Ep; simpl.
  - by apply view_store_files_own.
  - rewrite delete_id by done. by apply view_known.
Qed.

Lemma file_resource_outcome path m :
  (file_resource path m).1
  = match view_files (view (getattr_client_id "file_resource" m) m) !! path with
    | Some content => Return content
    | None => Raise {| Mcp.code := -32602; Mcp.message := "File not found: " ++ path |}
    end.
Proof using Type.
  unfold file_resource. enter_handler m l m1. rewrite Hview. simpl.
  by destruct (files_at m1 l !! path).
Qed.

Lemma handler_attrs q m :
  getattr_client_id (handler_name q) (invoke q m).2 = getattr_client_id (handler_name q) m.
Proof. apply (identity_of_invoke q q m). Qed.

Lemma returning_snd {A} (inj : A → Value) (r : outcome A * Memory) :
  (returning inj r).2 = r.2.
Proof. unfold returning. by destruct r.1. Qed.

Lemma write_special_number_attrs value m :
  current_client_id (write_special_number value m).2 = current_client_id m.
Proof using Type.
  unfold write_special_number. enter_handler m l m1. simpl. by repeat case_match.
Qed.

Lemma delete_file_attrs path m :
  current_client_id (delete_file path m).2 = current_client_id m.
Proof using Type.
  unfold delete_file. enter_handler m l m1. simpl. by repeat case_match.
Qed.

Lemma set_trig_allowed_attrs allowed m :
  current_client_id (set_trig_allowed allowed m).2 = current_client_id m.
Proof using Type.
  unfold set_trig_allowed. enter_handler m l m1. simpl. by repeat case_match.
Qed.

(** ** Isolation between identities *)

(** C1: for two distinct client identities [c1] and [c2], a call that runs
    under [c1] (the four writing tools [SetTrigAllowed], [WriteSpecialNumber],
    [WriteFile], [DeleteFile] among them) leaves what [c2] observes as it
    was: its [trig_allowed] flag, its [special_number], its files, and the
    outcome of every call that runs under [c2] ([Cos], [Sin] and the
    resource reads among them). *)
Theorem client_state_isolation (q : Call) (m : Memory) (c1 c2 : string) :
  wf m → identity_of q m = c1 → c1 ≠ c2 →
  view c2 (invoke q m).2 = view c2 m
  ∧ ∀ q', identity_of q' m = c2 → (invoke q' (invoke q m).2).1 = (invoke q' m).1.
Proof.
  intros Hwf Hc1 Hne. subst c1.
  split; [by apply invoke_view_other|].
  intros q' Hc2. apply invoke_outcome_of_view.
  rewrite identity_of_invoke, Hc2. by apply invoke_view_other.
Qed.


(** ** The identity every handler resolves *)

Lemma serve_all_attrs rs m :
  current_client_id (serve_all rs m).2 = current_client_id m.
Proof.
  revert m. induction rs as [|r rs IH]; intros m; simpl; [done|].
  unfold Server.serve.
  destruct (invoke (call r) m) as [o m'] eqn:E.
  specialize (IH m'). destruct (serve_all rs m') as [os m''] eqn:E'. simpl in *.
  rewrite IH. change m' with (o, m').2. rewrite <- E. apply invoke_attrs.
Qed.

Lemma invoke_client_states q m :
  client_states (invoke q m).2
  = client_states (get_client_state (identity_of q m) m).2.
Proof.
  unfold identity_of.
  destruct q; simpl;
    unfold returning, cos, sin, set_trig_allowed, write_special_number,
      special_number_resource, write_file, delete_file, file_resource,
      summarize_file_prompt;
    enter_handler m l m1; simpl; repeat case_match; simpl; done.
Qed.

Lemma get_client_state_dom client_id m :
  dom (client_states (get_client_state client_id m).2)
  = {[client_id]} ∪ dom (client_states m).
Proof.
  unfold get_client_state.
  destruct (client_states m !! client_id) eqn:E; simpl.
  - apply elem_of_dom_2 in E. set_solver.
  - by rewrite dom_insert_L.
Qed.

Lemma serve_all_dom rs m :
  current_client_id m = ∅ →
  dom (client_states (serve_all rs m).2) ⊆ {["default"]} ∪ dom (client_states m).
Proof.
  revert m. induction rs as [|r rs IH]; intros m Hattr; simpl; [set_solver|].
  unfold Server.serve.
  destruct (invoke (call r) m) as [o m'] eqn:E.
  assert (Hm' : m' = (invoke (call r) m).2) by (by rewrite E).
  specialize (IH m'). destruct (serve_all rs m') as [os m''] eqn:E'. simpl in *.
  etrans; [apply IH; by rewrite Hm', invoke_attrs|].
  rewrite Hm', invoke_client_states, get_client_state_dom.
  unfold identity_of, getattr_client_id. rewrite Hattr, lookup_empty. simpl.
  set_solver.
Qed.

(** C2: in server.py no handler function is ever given the attribute
    [_current_client_id]: the attribute table is empty at start-up and
    stays empty.  So after any requests [rs], from whatever sessions, every
    call [q] resolves the identity ["default"], [client_states] has no key
    but ["default"], and what one session writes the other reads: after
    [set_trig_allowed(True)] on session [s1], [cos] on session [s2]
    succeeds. *)
Theorem every_call_runs_as_default (rs : list Request) (q : Call)
    (s1 s2 : string) (x : float) :
  let m := (serve_all rs startup).2 in
  current_client_id m = ∅
  ∧ identity_of q m = "default"
  ∧ dom (client_states m) ⊆ {["default"]}
  ∧ (serve {| session := s2; call := Cos x |}
       (serve {| session := s1; call := SetTrigAllowed true |} m).2).1
    = Return (VFloat (math_cos x)).
Proof using math_cos math_sin.
  intros m.
  assert (Hattr : current_client_id m = ∅) by apply serve_all_attrs.
  split; [done|]. split.
  { unfold identity_of, getattr_client_id. by rewrite Hattr, lookup_empty. }
  split.
  { etrans; [by apply serve_all_dom|]. simpl. set_solver. }
  unfold Server.serve. simpl.
  rewrite returning_snd. unfold returning at 1.
  rewrite cos_outcome.
  assert (Hid : getattr_client_id "cos" (set_trig_allowed true m).2
                = getattr_client_id "set_trig_allowed" m).
  { unfold getattr_client_id.
    by rewrite set_trig_allowed_attrs, Hattr, !lookup_empty. }
  rewrite Hid, set_trig_allowed_view. done.
Qed.

(** ** The special number *)

(** C6: for every integer [value] and every identity [c], a read of the
    special-number resource under [c] after [write_special_number(value)]
    under [c] yields the text of [value]; the read yields "42" when [c] has
    no state yet. *)
Theorem special_number_read_after_write (c : string) (value : Z) (m : Memory) :
  getattr_client_id "write_special_number" m = c →
  getattr_client_id "special_number_resource" m = c →
  (special_number_resource (write_special_number value m).2).1
  = Return (Py.str_int value)
  ∧ (client_states m !! c = None → (special_number_resource m).1 = Return "42").
Proof using Type.
  intros Hw Hr. split.
  - rewrite special_number_resource_outcome.
    assert (Hid : getattr_client_id "special_number_resource"
                    (write_special_number value m).2
                  = getattr_client_id "write_special_number" m).
    { unfold getattr_client_id in *. by rewrite write_special_number_attrs, Hr, Hw. }
    by rewrite Hid, write_special_number_view.
  - intros Hfresh. rewrite special_number_resource_outcome, Hr.
    by rewrite view_fresh.
Qed.

(** ** Files *)

(** C7: for every path and identity [c], [delete_file(path)] under [c]
    raises the not-found error when [path] is absent from the files of [c]
    and leaves those files as they were; when [path] is present it removes
    the entry, and a read of [file:///{path}] under [c] then raises the
    not-found error. *)
Theorem delete_file_then_not_found (c path : string) (m : Memory) :
  getattr_client_id "delete_file" m = c →
  getattr_client_id "file_resource" m = c →
  let not_found : outcome string :=
    Raise {| Mcp.code := -32602; Mcp.message := "File not found: " ++ path |} in
  (view_files (view c m) !! path = None →
     (delete_file path m).1 = not_found
     ∧ view_files (view c (delete_file path m).2) = view_files (view c m))
  ∧ (is_Some (view_files (view c m) !! path) →
     (delete_file path m).1 = Return ("File " ++ path ++ " deleted successfully")
     ∧ view_files (view c (delete_file path m).2) = delete path (view_files (view c m))
     ∧ (file_resource path (delete_file path m).2).1 = not_found).
Proof using Type.
  intros Hd Hf not_found.
  pose proof (delete_file_outcome path m) as Hout.
  pose proof (delete_file_view path m) as Hview. simpl in Hview.
  rewrite Hd in Hout, Hview.
  split.
  - intros Habs. rewrite Hout, Habs. split; [done|].
    rewrite Hview. simpl. by apply delete_id.
  - intros [content Hpres]. rewrite Hout, Hpres. split; [done|].
    rewrite Hview. simpl. split; [done|].
    rewrite file_resource_outcome.
    assert (Hid : getattr_client_id "file_resource" (delete_file path m).2 = c).
    { unfold getattr_client_id in *. by rewrite delete_file_attrs. }
    rewrite Hid, Hview. simpl. by rewrite lookup_delete_eq.
Qed.

(** ** Tools that talk to their context *)

Variable float_eval : string → option float.

Lemma exec_report_progress {A W} progress total text (k : Prog CtxE A)
    (env : Env CtxE W) (w : W) :
  exec (perform (ReportProgress progress total text);; k) env w
  = let w' := (env _ (ReportProgress progress total text) w).2 in
    let '(tr, a, w'') := exec k env w' in
    (Ev (ReportProgress progress total text) tt :: tr, a, w'').
Proof.
  simpl. by destruct (env _ (ReportProgress progress total text) w) as [[] w'].
Qed.

(** The [if]/[elif]/[else] of [eval_with_sampling]. *)
Lemma eval_with_sampling_value {W} expression (env : Env CtxE W) (w : W) :
  value (eval_with_sampling float_eval expression) env w
  = if String.eqb expression "2 + 2 * 3" then Return 8%float
    else if String.eqb expression "(2 + 3) * (4 + 5)" then Return 45%float
    else match float_eval expression with
         | Some r => Return r
         | None => Raise {| Mcp.code := -32603;
                            Mcp.message := "Cannot evaluate expression: " ++ expression |}
         end.
Proof.
  unfold value, eval_with_sampling. rewrite exec_report_progress. cbv zeta.
  destruct (String.eqb expression "2 + 2 * 3");
    [rewrite exec_report_progress; reflexivity|].
  destruct (String.eqb expression "(2 + 3) * (4 + 5)");
    [rewrite exec_report_progress; reflexivity|].
  destruct (float_eval expression);
    [rewrite exec_report_progress; reflexivity|reflexivity].
Qed.

(** C8: [eval_with_sampling] returns 8.0 for "2 + 2 * 3" and 45.0 for
    "(2 + 3) * (4 + 5)" whatever the generic evaluation would say; for any
    other input it returns what the generic evaluation returns and raises
    the evaluation error when that fails; and every evaluation that returns
    has reported progress 0 of 100 first and 100 of 100 last. *)
Theorem eval_with_sampling_spec {W} (expression : string) (env : Env CtxE W) (w : W) :
  value (eval_with_sampling float_eval "2 + 2 * 3") env w = Return 8%float
  ∧ value (eval_with_sampling float_eval "(2 + 3) * (4 + 5)") env w = Return 45%float
  ∧ (expression ≠ "2 + 2 * 3" → expression ≠ "(2 + 3) * (4 + 5)" →
     value (eval_with_sampling float_eval expression) env w
     = match float_eval expression with
       | Some r => Return r
       | None => Raise {| Mcp.code := -32603;
                          Mcp.message := "Cannot evaluate expression: " ++ expression |}
       end)
  ∧ (∀ r, value (eval_with_sampling float_eval expression) env w = Return r →
     events (eval_with_sampling float_eval expression) env w
     = [Ev (ReportProgress 0 100 "Starting evaluation") tt;
        Ev (ReportProgress 100 100 "Evaluation complete") tt]).
Proof.
  split; [by rewrite eval_with_sampling_value|].
  split; [by rewrite eval_with_sampling_value|].
  split.
  - intros H1 H2. rewrite eval_with_sampling_value.
    apply String.eqb_neq in H1, H2. by rewrite H1, H2.
  - intros r. unfold value, events, eval_with_sampling.
    rewrite exec_report_progress. cbv zeta.
    destruct (String.eqb expression "2 + 2 * 3");
      [rewrite exec_report_progress; reflexivity|].
    destruct (String.eqb expression "(2 + 3) * (4 + 5)");
      [rewrite exec_report_progress; reflexivity|].
    destruct (float_eval expression);
      [rewrite exec_report_progress; reflexivity|discriminate].
Qed.

(** C4: for every integer [a], [ambiguous_add(a)] makes exactly one request
    to its context, an elicitation for [b] with the schema [{b: int}]; on
    accept with payload [b] it returns [a + b]; on decline it raises the
    error with code -32000, whose message contains "declined"; on cancel it
    raises the error with code -32001; the two codes differ. *)
Theorem ambiguous_add_spec {W} (a : Z) (env : Env CtxE W) (w : W) :
  let request :=
    Elicit ("Please provide the second number (b) to add to " ++ Py.str_int a ++ ":")
      [("b", TInt)] in
  let reply := (env _ request w).1 in
  events (ambiguous_add a) env w = [Ev request reply]
  ∧ match reply with
    | Accepted data => value (ambiguous_add a) env w = Return (a + b data)
    | Declined =>
        ∃ e, value (ambiguous_add a) env w = Raise e
             ∧ Mcp.code e = -32000
             ∧ Py.contains "declined" (Mcp.message e) = true
    | Cancelled =>
        ∃ e, value (ambiguous_add a) env w = Raise e ∧ Mcp.code e = -32001
    end
  ∧ (-32000 ≠ -32001)%Z.
Proof.
  intros request reply. subst reply request.
  unfold events, value, ambiguous_add, BInput_schema. simpl.
  destruct (env _ _ w) as [[data| |] w']; simpl;
    (split; [done|]); (split; [|done]); eauto.
Qed.

(** ** Error codes *)

(** C3, as the code has it: the feature-disabled error of [cos] and [sin]
    and the evaluation error of [eval_with_sampling] both carry the code
    -32603; the invalid-params error of [always_error] and of the
    [error://not-found] resource and the not-found error of [delete_file]
    and of the file resource both carry the code -32602; the two codes
    differ.  Each line also says when the error is raised. *)
Theorem error_codes_by_kind {W} (x : float) (path expression : string) (m : Memory)
    (env : Env CtxE W) (w : W) :
  raised_code (cos math_cos x m).1
  = (if view_trig_allowed (view (getattr_client_id "cos" m) m) then None
     else Some (-32603))
  ∧ raised_code (sin math_sin x m).1
    = (if view_trig_allowed (view (getattr_client_id "sin" m) m) then None
       else Some (-32603))
  ∧ raised_code (value (eval_with_sampling float_eval expression) env w)
    = (if (String.eqb expression "2 + 2 * 3"
           || String.eqb expression "(2 + 3) * (4 + 5)"
           || bool_decide (is_Some (float_eval expression)))%bool
       then None else Some (-32603))
  ∧ raised_code always_error = Some (-32602)
  ∧ raised_code not_found_resource = Some (-32602)
  ∧ raised_code (delete_file path m).1
    = (if bool_decide (is_Some (view_files (view (getattr_client_id "delete_file" m) m)
                                  !! path))
       then None else Some (-32602))
  ∧ raised_code (file_resource path m).1
    = (if bool_decide (is_Some (view_files (view (getattr_client_id "file_resource" m) m)
                                  !! path))
       then None else Some (-32602))
  ∧ (-32603 ≠ -32602)%Z.
Proof.
  rewrite cos_outcome, sin_outcome, eval_with_sampling_value,
    delete_file_outcome, file_resource_outcome.
  repeat split; try done.
  - by destruct (view_trig_allowed _).
  - by destruct (view_trig_allowed _).
  - destruct (String.eqb expression "2 + 2 * 3"); [done|].
    destruct (String.eqb expression "(2 + 3) * (4 + 5)"); [done|].
    by destruct (float_eval expression).
  - by destruct (_ !! path).
  - by destruct (_ !! path).
Qed.

End ServerFacts.


(** * Properties of the client *)

Section ClientFacts.

Import Client.

Variable float_str : string → option float.

Abbreviation run_scenario := (Client.run_scenario float_str).
Abbreviation main := (Client.main float_str).

(** ** Running programs *)

Lemma exec_bind {E A B W} (p : Prog E A) (f : A → Prog E B) (env : Env E W) (w : W) :
  exec (p ≫= f) env w
  = let '(tr1, a, w1) := exec p env w in
    let '(tr2, b, w2) := exec (f a) env w1 in
    ((tr1 ++ tr2)%list, b, w2).
Proof.
  revert w. induction p as [a|R e k IH]; intros w.
  - simpl. by destruct (exec (f a) env w) as [[tr2 b] w2].
  - change (exec (Do e k ≫= f) env w)
      with (let '(r, w') := env _ e w in
            let '(tr, a, w'') := exec (k r ≫= f) env w' in
            (Ev e r :: tr, a, w'')).
    simpl. destruct (env _ e w) as [r w']. rewrite IH.
    destruct (exec (k r) env w') as [[tr1 a] w1].
    by destruct (exec (f a) env w1) as [[tr2 b] w2].
Qed.

Lemma exec_print {A W} to_stderr line (k : Prog ClientE A) (env : Env ClientE W) (w : W) :
  exec (perform (Print to_stderr line);; k) env w
  = let w' := (env _ (Print to_stderr line) w).2 in
    let '(tr, a, w'') := exec k env w' in
    (Ev (Print to_stderr line) tt :: tr, a, w'').
Proof. simpl. by destruct (env _ (Print to_stderr line) w) as [[] w']. Qed.

Lemma events_do {E A R W} (e : E R) (k : R → Prog E A) (env : Env E W) (w : W) :
  events (Do e k) env w
  = Ev e (env _ e w).1 :: events (k (env _ e w).1) env (env _ e w).2.
Proof.
  unfold events. simpl. destruct (env _ e w) as [r w']. simpl.
  by destruct (exec (k r) env w') as [[tr a] w''].
Qed.

(** ** Elicitation responders *)

Lemma lower_ascii_b (c : ascii) :
  Py.lower_ascii c = "b"%char ↔ c = "b"%char ∨ c = "B"%char.
Proof.
  split.
  - destruct c as [[] [] [] [] [] [] [] []]; vm_compute; intros H;
      first [by left | by right | discriminate H].
  - intros [-> | ->]; reflexivity.
Qed.

(** ["b" in s.lower()] holds exactly when [s] has a [b] or a [B]. *)
Lemma contains_b_lower (s : string) :
  Py.contains "b" (Py.lower s) = true
  ↔ ∃ pre c post, s = pre ++ String c post ∧ (c = "b"%char ∨ c = "B"%char).
Proof.
  induction s as [|c s IH]; cbn [Py.lower Py.contains Py.startswith].
  - split; [done|]. intros (pre & c & post & H & _). by destruct pre.
  - destruct (Ascii.eqb "b" (Py.lower_ascii c)) eqn:Ec.
    + split; [|done]. intros _. exists "", c, s. split; [done|].
      apply lower_ascii_b. symmetry. by apply Ascii.eqb_eq.
    + rewrite IH. split.
      * intros (pre & c' & post & -> & Hc'). by exists (String c pre), c', post.
      * intros (pre & c' & post & H & Hc'). destruct pre as [|c0 pre]; simpl in H.
        -- injection H as -> ->. apply lower_ascii_b in Hc'.
           rewrite Hc' in Ec. discriminate Ec.
        -- injection H as -> ->. by exists pre, c', post.
Qed.

(** The callback is handed over when the session is opened, before
    [initialize] and before the scenario's calls. *)
Lemma run_scenario_opens_session scenario_id client_id transport transport_args
    scenarios_data scenario connection :
  find_scenario scenario_id scenarios_data = Some scenario →
  Py.in_list client_id (client_ids scenario) = true →
  create_client_connection transport transport_args = Ok connection →
  let fail e : Prog ClientE (try bool) :=
    Do (Print true (TextExn "Error: Failed to connect or execute scenario: " e))
       (λ _, Ret (Ok false)) in
  run_scenario scenario_id client_id (transport :: transport_args) scenarios_data
  = Do (Print false (Text ("Running scenario " ++ Py.str_int scenario_id ++ ": "
                           ++ description scenario)))
      (λ _,
        Do (Enter connection)
          (λ c, match c with
                | Raised e => fail e
                | Ok _ =>
                    Do (OpenSession (elicitation_callback scenario_id))
                      (λ s, match s with
                            | Raised e => fail e
                            | Ok _ =>
                                Do Initialize
                                  (λ i, match i with
                                        | Raised e => fail e
                                        | Ok _ =>
                                            dispatch float_str scenario_id client_id
                                            ≫= λ success, Ret (Ok success)
                                        end)
                            end)
                end)).
Proof.
  intros Hfind Hin Hconn fail. unfold Client.run_scenario.
  rewrite Hfind, Hin, Hconn. reflexivity.
Qed.

(** So the first thing the client does on an open connection is to open
    the session with the callback of its scenario id. *)
Lemma run_scenario_registers_responder {W} scenario_id client_id transport transport_args
    scenarios_data scenario connection (env : Env ClientE W) (w : W) :
  find_scenario scenario_id scenarios_data = Some scenario →
  Py.in_list client_id (client_ids scenario) = true →
  create_client_connection transport transport_args = Ok connection →
  let running :=
    Print false (Text ("Running scenario " ++ Py.str_int scenario_id ++ ": "
                       ++ description scenario)) in
  let w1 := (env _ running w).2 in
  (env _ (Enter connection) w1).1 = Ok tt →
  take 3 (events (run_scenario scenario_id client_id (transport :: transport_args)
                    scenarios_data) env w)
  = [Ev running tt;
     Ev (Enter connection) (Ok tt);
     Ev (OpenSession (elicitation_callback scenario_id))
        (env _ (OpenSession (elicitation_callback scenario_id))
           (env _ (Enter connection) w1).2).1].
Proof.
  intros Hfind Hin Hconn running w1 Henter. subst w1 running.
  rewrite (run_scenario_opens_session _ _ _ _ _ _ _ Hfind Hin Hconn).
  rewrite events_do.
  destruct (env _ (Print false _) w) as [[] w1]. cbn [fst snd] in *.
  rewrite events_do, Henter. cbv iota.
  rewrite events_do. reflexivity.
Qed.

(** C5, as the code has it: the responder is a function of the scenario id
    alone.  For scenario 2 it is [elicitation_handler_for_scenario_2], which
    accepts with [b = 20] when the lower-cased prompt contains "b" (so for
    the prompt of [ambiguous_add], whatever [a]) and declines otherwise; for
    scenario 24 it is a responder that always declines; for every other id
    none is registered.  It is chosen before the session is established:
    once the connection is open, the next thing [run_scenario] does is to
    open the session with that callback. *)
Theorem elicitation_responder_by_scenario {W} (scenario_id a : Z)
    (params : ElicitRequestParams) (client_id transport : string)
    (transport_args : list string) (scenarios_data : ScenariosData)
    (env : Env ClientE W) (w : W) :
  elicitation_callback 2 = Some elicitation_handler_for_scenario_2
  ∧ elicitation_callback 24 = Some elicitation_handler_for_scenario_24
  ∧ (scenario_id ≠ 2 → scenario_id ≠ 24 → elicitation_callback scenario_id = None)
  ∧ (Py.contains "b" (Py.lower (message params)) = true →
     elicitation_handler_for_scenario_2 params = ElicitAccept [("b", 20)])
  ∧ (Py.contains "b" (Py.lower (message params)) = false →
     elicitation_handler_for_scenario_2 params = ElicitDecline)
  ∧ elicitation_handler_for_scenario_2
      {| message := "Please provide the second number (b) to add to "
                    ++ Py.str_int a ++ ":" |}
    = ElicitAccept [("b", 20)]
  ∧ elicitation_handler_for_scenario_24 params = ElicitDecline
  ∧ (∀ scenario connection,
       find_scenario scenario_id scenarios_data = Some scenario →
       Py.in_list client_id (client_ids scenario) = true →
       create_client_connection transport transport_args = Ok connection →
       let running :=
         Print false (Text ("Running scenario " ++ Py.str_int scenario_id ++ ": "
                            ++ description scenario)) in
       let w1 := (env _ running w).2 in
       (env _ (Enter connection) w1).1 = Ok tt →
       take 3 (events (run_scenario scenario_id client_id (transport :: transport_args)
                         scenarios_data) env w)
       = [Ev running tt;
          Ev (Enter connection) (Ok tt);
          Ev (OpenSession (elicitation_callback scenario_id))
             (env _ (OpenSession (elicitation_callback scenario_id))
                (env _ (Enter connection) w1).2).1]).
Proof.
  split; [done|]. split; [done|]. split.
  { intros H2 H24. unfold elicitation_callback.
    apply Z.eqb_neq in H2, H24. by rewrite H2, H24. }
  split.
  { intros H. unfold elicitation_handler_for_scenario_2. by rewrite H. }
  split.
  { intros H. unfold elicitation_handler_for_scenario_2. by rewrite H. }
  split; [done|]. split; [done|].
  intros scenario connection. apply run_scenario_registers_responder.
Qed.

(** ** Failing fast, and the exit status *)

(** C9: when the scenario id is not in the catalog, or the client id is not
    among the scenario's [client_ids], [run_scenario] prints its error
    ("... not found", "... not in scenario ...") and returns [False] with no
    protocol call made; and the exit status of [main] is 0 or 1, and is 0
    exactly when the catalog was loaded, holds the scenario, and
    [run_scenario] returned [True]. *)
Theorem run_scenario_fails_fast {W} (args : Args) (scenario_id : Z) (client_id : string)
    (server_desc : list string) (scenarios_data : ScenariosData)
    (env : Env ClientE W) (w : W) :
  (find_scenario scenario_id scenarios_data = None →
     events (run_scenario scenario_id client_id server_desc scenarios_data) env w
     = [Ev (Print true (Text ("Error: Scenario " ++ Py.str_int scenario_id ++ " not found"))) tt]
     ∧ value (run_scenario scenario_id client_id server_desc scenarios_data) env w
       = Ok false)
  ∧ (∀ scenario,
       find_scenario scenario_id scenarios_data = Some scenario →
       Py.in_list client_id (client_ids scenario) = false →
       events (run_scenario scenario_id client_id server_desc scenarios_data) env w
       = [Ev (Print true (Text ("Error: Client ID '" ++ client_id ++ "' not in scenario "
                                ++ Py.str_int scenario_id))) tt]
       ∧ value (run_scenario scenario_id client_id server_desc scenarios_data) env w
         = Ok false)
  ∧ ((find_scenario scenario_id scenarios_data = None
      ∨ ∃ scenario, find_scenario scenario_id scenarios_data = Some scenario
                    ∧ Py.in_list client_id (client_ids scenario) = false) →
     Forall (λ ev, event_is_protocol_call ev = false)
       (events (run_scenario scenario_id client_id server_desc scenarios_data) env w))
  ∧ (let status := value (main args) env w in
     let loaded := env _ (LoadScenariosData (arg_scenarios_data args)) w in
     (status = 0 ∨ status = 1)
     ∧ (status = 0 ↔
        ∃ data scenario,
          loaded.1 = Ok data
          ∧ find_scenario (arg_scenario_id args) data = Some scenario
          ∧ value (run_scenario (arg_scenario_id args) (arg_id args)
                     (arg_server_desc args) data) env
              (env _ (Print false
                        (Text ("Executing scenario " ++ Py.str_int (arg_scenario_id args)
                               ++ ": " ++ description scenario))) loaded.2).2
            = Ok true)).
Proof.
  assert (Habsent : find_scenario scenario_id scenarios_data = None →
    exec (run_scenario scenario_id client_id server_desc scenarios_data) env w
    = ([Ev (Print true (Text ("Error: Scenario " ++ Py.str_int scenario_id
                              ++ " not found"))) tt],
       Ok false,
       (env _ (Print true (Text ("Error: Scenario " ++ Py.str_int scenario_id
                                 ++ " not found"))) w).2)).
  { intros H. unfold Client.run_scenario. rewrite H. by rewrite exec_print. }
  assert (Hstranger : ∀ scenario,
    find_scenario scenario_id scenarios_data = Some scenario →
    Py.in_list client_id (client_ids scenario) = false →
    exec (run_scenario scenario_id client_id server_desc scenarios_data) env w
    = ([Ev (Print true (Text ("Error: Client ID '" ++ client_id ++ "' not in scenario "
                              ++ Py.str_int scenario_id))) tt],
       Ok false,
       (env _ (Print true (Text ("Error: Client ID '" ++ client_id
                                 ++ "' not in scenario " ++ Py.str_int scenario_id))) w).2)).
  { intros scenario H Hin. unfold Client.run_scenario. rewrite H, Hin. simpl negb.
    cbv iota. by rewrite exec_print. }
  split; [|split; [|split]].
  - intros H. unfold events, value. by rewrite (Habsent H).
  - intros scenario H Hin. unfold events, value. by rewrite (Hstranger scenario H Hin).
  - intros [H | (scenario & H & Hin)]; unfold events.
    + rewrite (Habsent H). simpl. by repeat constructor.
    + rewrite (Hstranger scenario H Hin). simpl. by repeat constructor.
  - clear Habsent Hstranger. intros status loaded. subst status loaded.
    unfold value, Client.main.
    change (exec (perform (LoadScenariosData (arg_scenarios_data args)) ≫= ?f) env w)
      with (let '(r, w') := env _ (LoadScenariosData (arg_scenarios_data args)) w in
            let '(tr, a, w'') := exec (f r) env w' in
            (Ev (LoadScenariosData (arg_scenarios_data args)) r :: tr, a, w'')).
    destruct (env _ (LoadScenariosData (arg_scenarios_data args)) w) as [[e|data] w1].
    { assert (Hone : (exec (match e with
                 | FileNotFoundError =>
                     perform (Print true (Text "Error: Scenarios data file not found"));;
                     mret 1
                 | JSONDecodeError text =>
                     perform (Print true (TextExn "Error: Invalid JSON in scenarios data: "
                                            (JSONDecodeError text)));;
                     mret 1
                 | _ => mret 1
                 end : Prog ClientE Z) env w1).1.2 = 1).
      { destruct e; try reflexivity; by rewrite exec_print. }
      simpl in *. destruct (exec _ env w1) as [[tr a] w2]. simpl in *. subst a.
      split; [by right|]. split; [done|]. by intros (? & ? & ? & _). }
    cbv beta iota.
    destruct (find_scenario (arg_scenario_id args) data) as [scenario|] eqn:Hfind.
    2:{ rewrite exec_print. simpl. split; [by right|]. split; [done|].
        intros (d & sc & [= <-] & Hsc & _). rewrite Hfind in Hsc. discriminate Hsc. }
    rewrite exec_print. cbv zeta. rewrite exec_bind.
    destruct (exec (run_scenario _ _ _ _) env _) as [[tr1 r] w2] eqn:Hrun.
    destruct r as [e|[|]]; cbv beta iota.
    + rewrite exec_print. simpl. split; [by right|]. split; [done|].
      intros (d & sc & [= <-] & Hsc & Hv). rewrite Hfind in Hsc.
      injection Hsc as <-.
      pose proof (f_equal (λ x, x.1.2) Hrun) as Hv'. simpl in Hv'.
      unfold value in Hv. rewrite Hv' in Hv. discriminate Hv.
    + simpl. split; [by left|]. split; [|done]. intros _.
      exists data, scenario. split; [done|]. split; [done|].
      exact (f_equal (λ x, x.1.2) Hrun).
    + simpl. split; [by right|]. split; [done|].
      intros (d & sc & [= <-] & Hsc & Hv). rewrite Hfind in Hsc.
      injection Hsc as <-.
      pose proof (f_equal (λ x, x.1.2) Hrun) as Hv'. simpl in Hv'.
      unfold value in Hv. rewrite Hv' in Hv. discriminate Hv.
Qed.

End ClientFacts.


(** * Calls in flight *)

Section TransportFacts.

Import Transport.

Implicit Types (r : Request) (waiters : gmap nat Client.CallToolResult).

Lemma deliver_other (responses : list Response) waiters (k : nat) :
  k ∉ response_id <$> responses → deliver responses waiters !! k = waiters !! k.
Proof.
  revert waiters. induction responses as [|x rest IH]; intros waiters Hk; simpl; [done|].
  simpl in Hk. apply not_elem_of_cons in Hk as [Hx Hrest].
  rewrite IH by done. by rewrite lookup_insert_ne.
Qed.

(** A response reaches the waiter of its id whatever arrives around it. *)
Lemma deliver_lookup (responses : list Response) waiters (x : Response) :
  NoDup (response_id <$> responses) → x ∈ responses →
  deliver responses waiters !! response_id x = Some (result x).
Proof.
  revert waiters. induction responses as [|y rest IH]; intros waiters Hnd Hin.
  - by apply elem_of_nil in Hin.
  - simpl in *. apply NoDup_cons in Hnd as [Hy Hnd].
    apply elem_of_cons in Hin as [->|Hin].
    + rewrite deliver_other by done. by rewrite lookup_insert_eq.
    + by apply IH.
Qed.

Lemma complete_ids (completion : list Request) :
  response_id <$> complete completion = request_id <$> completion.
Proof. unfold complete. rewrite <- list_fmap_compose. by apply list_fmap_ext. Qed.

Lemma issue_ids next_id calls :
  request_id <$> issue next_id calls = seq next_id (length calls).
Proof.
  revert next_id. induction calls as [|[name args] rest IH]; intros next_id; simpl; [done|].
  by rewrite IH.
Qed.

Lemma mapM_pointwise {A B} (f : A → option B) (g : A → B) (l : list A) :
  (∀ x, x ∈ l → f x = Some (g x)) → mapM f l = Some (g <$> l).
Proof.
  induction l as [|x l IH]; intros H; simpl; [done|].
  rewrite (H x) by apply list_elem_of_here. simpl.
  rewrite IH; [done|]. intros y Hy. apply H. by apply list_elem_of_further.
Qed.

(** Whatever the order of completion, [gather] yields, position by
    position, the result of the request issued at that position. *)
Lemma gather_any_completion_order (requests completion : list Request) :
  NoDup (request_id <$> requests) →
  completion ≡ₚ requests →
  gather requests (deliver (complete completion) ∅)
  = Some ((λ r, result (call_add r)) <$> requests).
Proof.
  intros Hnd Hperm. unfold gather.
  apply mapM_pointwise. intros r Hr.
  change (request_id r) with (response_id (call_add r)).
  apply deliver_lookup.
  - rewrite complete_ids. by rewrite Hperm.
  - unfold complete. apply list_elem_of_fmap_2. by rewrite Hperm.
Qed.

(** C10: the three calls [add(1,2)], [add(3,4)], [add(5,6)] are issued in
    that order; in whatever order the server completes them, the list
    handed to the caller holds the results 3, 7, 11 in issuance order, and
    scenario 25 passes on it. *)
Theorem concurrent_adds_in_issuance_order {W} (first_id : nat) (completion : list Request) (env : Env Client.ClientE W) (w : W) :
  completion ≡ₚ issue first_id three_adds →
  let text s := {| Client.content := [Client.TextContent s]; Client.isError := false |} in
  gather (issue first_id three_adds) (deliver (complete completion) ∅)
  = Some [text "3"; text "7"; text "11"]
  ∧ Client.int_of_result <$> [text "3"; text "7"; text "11"]
    = [Client.Ok (Server.add 1 2); Client.Ok (Server.add 3 4); Client.Ok (Server.add 5 6)]
  ∧ ((env _ (Client.Gather three_adds) w).1 = Client.Ok [text "3"; text "7"; text "11"] →
     value Client.execute_scenario_25 env w = true).
Proof.
  intros Hperm text. split; [|split].
  - rewrite gather_any_completion_order; [done| |done].
    rewrite issue_ids. apply NoDup_seq.
  - reflexivity.
  - intros Hreply. unfold value, Client.execute_scenario_25. simpl.
    change (env _ (Client.Gather _) w) with (env _ (Client.Gather three_adds) w).
    destruct (env _ (Client.Gather three_adds) w) as [r w1]. simpl in Hreply. subst r.
    simpl. by destruct (env _ _ w1) as [[] w2].
Qed.

End TransportFacts.


(** * Instances *)

(** C1 at a concrete memory: [set_trig_allowed] carries the attribute
    "client1", [cos] carries "client2", and nobody has a state yet. *)
Lemma client_state_isolation_witness :
  let m := {| Server.client_states := ∅; Server.state_dicts := ∅; Server.files_dicts := ∅;
              Server.current_client_id :=
                <["set_trig_allowed" := "client1"]> (<["cos" := "client2"]> ∅);
              Server.next_loc := 1%positive |} in
  let q := Server.SetTrigAllowed true in
  Server.wf m
  ∧ Server.identity_of q m = "client1"
  ∧ "client1" ≠ "client2"
  ∧ Server.view "client2" (Server.invoke PrimFloat.abs PrimFloat.abs q m).2
    = Server.view "client2" m
  ∧ (Server.invoke PrimFloat.abs PrimFloat.abs (Server.Cos 0%float)
       (Server.invoke PrimFloat.abs PrimFloat.abs q m).2).1
    = (Server.invoke PrimFloat.abs PrimFloat.abs (Server.Cos 0%float) m).1.
Proof.
  intros m q.
  assert (Hwf : Server.wf m) by apply wf_startup.
  assert (Hid : Server.identity_of q m = "client1") by reflexivity.
  assert (Hne : "client1" ≠ "client2") by discriminate.
  destruct (client_state_isolation PrimFloat.abs PrimFloat.abs q m "client1" "client2"
              Hwf Hid Hne) as [Hview Hcalls].
  split; [exact Hwf|]. split; [exact Hid|]. split; [exact Hne|].
  split; [exact Hview|]. apply Hcalls. reflexivity.
Defined.

(** C3 as stated fails: the four codes are not pairwise distinct. *)
Lemma error_codes_not_pairwise_distinct :
  let feature_disabled :=
    raised_code (Server.cos PrimFloat.abs 0%float Server.startup).1 in
  let invalid_params := raised_code Server.always_error in
  let not_found := raised_code (Server.delete_file "/missing.txt" Server.startup).1 in
  let evaluation_error :=
    raised_code (value (Server.eval_with_sampling (λ _, None) "1 +") Server.unattended tt) in
  feature_disabled = Some (-32603)
  ∧ invalid_params = Some (-32602)
  ∧ not_found = Some (-32602)
  ∧ evaluation_error = Some (-32603)
  ∧ ¬ (feature_disabled ≠ invalid_params ∧ feature_disabled ≠ not_found
       ∧ feature_disabled ≠ evaluation_error ∧ invalid_params ≠ not_found
       ∧ invalid_params ≠ evaluation_error ∧ not_found ≠ evaluation_error).
Proof.
  intros feature_disabled invalid_params not_found evaluation_error.
  assert (H1 : feature_disabled = Some (-32603)) by (vm_compute; reflexivity).
  assert (H2 : invalid_params = Some (-32602)) by reflexivity.
  assert (H3 : not_found = Some (-32602)) by (vm_compute; reflexivity).
  assert (H4 : evaluation_error = Some (-32603)) by (vm_compute; reflexivity).
  repeat split; try assumption.
  intros (_ & _ & Hne & _). apply Hne. by rewrite H1, H4.
Qed.

(** C5 as stated fails: the responder of scenario 2 declines a prompt
    without the letter b. *)
Lemma scenario_2_responder_can_decline :
  Client.elicitation_callback 2 = Some Client.elicitation_handler_for_scenario_2
  ∧ Client.elicitation_handler_for_scenario_2 {| Client.message := "How many?" |}
    = Client.ElicitDecline
  ∧ Client.elicitation_handler_for_scenario_2 {| Client.message := "How many?" |}
    ≠ Client.ElicitAccept [("b", 20)].
Proof. repeat split. discriminate. Qed.

Lemma elicitation_responder_by_scenario_witness :
  let catalog :=
    {| Client.scenarios :=
         [{| Client.id := 2; Client.description := "elicited add";
             Client.client_ids := ["client1"] |}] |} in
  let env := Client.scripted catalog [] in
  (1 ≠ 2)%Z ∧ (1 ≠ 24)%Z
  ∧ Client.elicitation_callback 1 = None
  ∧ Py.contains "b" (Py.lower "Number B?") = true
  ∧ Client.elicitation_handler_for_scenario_2 {| Client.message := "Number B?" |}
    = Client.ElicitAccept [("b", 20)]
  ∧ Py.contains "b" (Py.lower "How many?") = false
  ∧ Client.elicitation_handler_for_scenario_2 {| Client.message := "How many?" |}
    = Client.ElicitDecline
  ∧ take 3 (events (Client.run_scenario (λ _, None) 2 "client1" ["stdio"; "test-server"]
                      catalog) env tt)
    = [Ev (Client.Print false (Client.Text "Running scenario 2: elicited add")) tt;
       Ev (Client.Enter (Client.stdio_client "test-server" [])) (Client.Ok tt);
       Ev (Client.OpenSession (Some Client.elicitation_handler_for_scenario_2))
          (Client.Ok tt)].
Proof.
  intros catalog env.
  destruct (elicitation_responder_by_scenario (λ _, None) 1 10
              {| Client.message := "Number B?" |} "client1" "stdio" ["test-server"]
              catalog env tt)
    as (_ & _ & Hnone & Haccept & _).
  destruct (elicitation_responder_by_scenario (λ _, None) 2 10
              {| Client.message := "How many?" |} "client1" "stdio" ["test-server"]
              catalog env tt)
    as (_ & _ & _ & _ & Hdecline & _ & _ & Hsession).
  split; [lia|]. split; [lia|].
  split; [apply Hnone; lia|].
  split; [reflexivity|]. split; [apply Haccept; reflexivity|].
  split; [reflexivity|]. split; [apply Hdecline; reflexivity|].
  apply (Hsession
           {| Client.id := 2; Client.description := "elicited add";
              Client.client_ids := ["client1"] |}
           (Client.stdio_client "test-server" [])).
  - reflexivity.
  - vm_compute. reflexivity.
  - reflexivity.
  - reflexivity.
Defined.

Lemma special_number_read_after_write_witness :
  Server.getattr_client_id "write_special_number" Server.startup = "default"
  ∧ Server.getattr_client_id "special_number_resource" Server.startup = "default"
  ∧ Server.client_states Server.startup !! "default" = None
  ∧ (Server.special_number_resource (Server.write_special_number 100 Server.startup).2).1
    = Return "100"
  ∧ (Server.special_number_resource Server.startup).1 = Return "42".
Proof.
  destruct (special_number_read_after_write "default" 100 Server.startup
              eq_refl eq_refl) as [Hwrite Hfresh].
  split; [reflexivity|]. split; [reflexivity|]. split; [reflexivity|].
  split; [exact Hwrite|]. apply Hfresh. reflexivity.
Defined.

Lemma delete_file_then_not_found_witness :
  Server.getattr_client_id "delete_file" Server.startup = "default"
  ∧ Server.getattr_client_id "file_resource" Server.startup = "default"
  ∧ Server.view_files (Server.view "default" Server.startup) !! "/missing.txt" = None
  ∧ (Server.delete_file "/missing.txt" Server.startup).1
    = Raise {| Mcp.code := -32602; Mcp.message := "File not found: /missing.txt" |}
  ∧ is_Some (Server.view_files (Server.view "default" Server.startup) !! "/readme.txt")
  ∧ (Server.file_resource "/readme.txt"
       (Server.delete_file "/readme.txt" Server.startup).2).1
    = Raise {| Mcp.code := -32602; Mcp.message := "File not found: /readme.txt" |}.
Proof.
  destruct (delete_file_then_not_found "default" "/missing.txt" Server.startup
              eq_refl eq_refl) as [Habsent _].
  destruct (delete_file_then_not_found "default" "/readme.txt" Server.startup
              eq_refl eq_refl) as [_ Hpresent].
  assert (H1 : Server.view_files (Server.view "default" Server.startup) !! "/missing.txt"
               = None) by (vm_compute; reflexivity).
  assert (H2 : is_Some (Server.view_files (Server.view "default" Server.startup)
                          !! "/readme.txt")).
  { exists "Initial readme content". vm_compute. reflexivity. }
  split; [reflexivity|]. split; [reflexivity|]. split; [exact H1|].
  split; [apply (Habsent H1)|]. split; [exact H2|].
  apply (Hpresent H2).
Defined.

Lemma eval_with_sampling_spec_witness :
  "1 + 1" ≠ "2 + 2 * 3" ∧ "1 + 1" ≠ "(2 + 3) * (4 + 5)"
  ∧ value (Server.eval_with_sampling (λ _, Some 2%float) "1 + 1") Server.unattended tt
    = Return 2%float
  ∧ events (Server.eval_with_sampling (λ _, Some 2%float) "1 + 1") Server.unattended tt
    = [Ev (Server.ReportProgress 0 100 "Starting evaluation") tt;
       Ev (Server.ReportProgress 100 100 "Evaluation complete") tt].
Proof.
  destruct (eval_with_sampling_spec (λ _, Some 2%float) "1 + 1" Server.unattended tt)
    as (_ & _ & Hother & Hevents).
  assert (H1 : "1 + 1" ≠ "2 + 2 * 3") by discriminate.
  assert (H2 : "1 + 1" ≠ "(2 + 3) * (4 + 5)") by discriminate.
  split; [exact H1|]. split; [exact H2|].
  split; [exact (Hother H1 H2)|].
  apply (Hevents 2%float). exact (Hother H1 H2).
Defined.

Lemma run_scenario_fails_fast_witness :
  let catalog :=
    {| Client.scenarios :=
         [{| Client.id := 25; Client.description := "three concurrent adds";
             Client.client_ids := ["client1"] |}] |} in
  let text s := {| Client.content := [Client.TextContent s]; Client.isError := false |} in
  let env := Client.scripted catalog [text "3"; text "7"; text "11"] in
  let run scenario_id client_id :=
    Client.run_scenario (λ _, None) scenario_id client_id ["stdio"; "test-server"] catalog in
  let args scenario_id client_id :=
    {| Client.arg_scenario_id := scenario_id; Client.arg_id := client_id;
       Client.arg_scenarios_data := None;
       Client.arg_server_desc := ["stdio"; "test-server"] |} in
  Client.find_scenario 999 catalog = None
  ∧ events (run 999 "client1") env tt
    = [Ev (Client.Print true (Client.Text "Error: Scenario 999 not found")) tt]
  ∧ value (run 999 "client1") env tt = Client.Ok false
  ∧ Py.in_list "client9" ["client1"] = false
  ∧ events (run 25 "client9") env tt
    = [Ev (Client.Print true
             (Client.Text "Error: Client ID 'client9' not in scenario 25")) tt]
  ∧ value (run 25 "client9") env tt = Client.Ok false
  ∧ value (Client.main (λ _, None) (args 25 "client1")) env tt = 0
  ∧ value (Client.main (λ _, None) (args 25 "client9")) env tt = 1
  ∧ value (Client.main (λ _, None) (args 999 "client1")) env tt = 1.
Proof.
  intros catalog text env run args.
  destruct (run_scenario_fails_fast (λ _, None) (args 25 "client1") 999 "client1"
              ["stdio"; "test-server"] catalog env tt) as (Habsent & _ & _ & _ & Hzero).
  destruct (run_scenario_fails_fast (λ _, None) (args 25 "client9") 25 "client9"
              ["stdio"; "test-server"] catalog env tt) as (_ & Hstranger & _ & Hone & _).
  destruct (run_scenario_fails_fast (λ _, None) (args 999 "client1") 25 "client9"
              ["stdio"; "test-server"] catalog env tt) as (_ & _ & _ & Hone' & _).
  assert (H1 : Client.find_scenario 999 catalog = None) by reflexivity.
  assert (H2 : Py.in_list "client9" ["client1"] = false) by (vm_compute; reflexivity).
  destruct (Habsent H1) as [He Hv].
  destruct (Hstranger _ eq_refl H2) as [He' Hv'].
  split; [exact H1|]. split; [exact He|]. split; [exact Hv|].
  split; [exact H2|]. split; [exact He'|]. split; [exact Hv'|].
  split.
  { apply Hzero. exists catalog. eexists. split; [reflexivity|]. split; [reflexivity|].
    vm_compute. reflexivity. }
  split; vm_compute; reflexivity.
Defined.

Lemma concurrent_adds_in_issuance_order_witness :
  let text s := {| Client.content := [Client.TextContent s]; Client.isError := false |} in
  let issued := Transport.issue 7 Transport.three_adds in
  let completion := reverse issued in
  completion ≡ₚ issued
  ∧ Transport.complete completion = [{| Transport.response_id := 9; Transport.result := text "11" |};
                                     {| Transport.response_id := 8; Transport.result := text "7" |};
                                     {| Transport.response_id := 7; Transport.result := text "3" |}]
  ∧ Transport.gather issued (Transport.deliver (Transport.complete completion) ∅)
    = Some [text "3"; text "7"; text "11"]
  ∧ value Client.execute_scenario_25
      (Client.scripted {| Client.scenarios := [] |} [text "3"; text "7"; text "11"]) tt
    = true.
Proof.
  intros text issued completion.
  assert (Hperm : completion ≡ₚ issued) by apply reverse_Permutation.
  destruct (concurrent_adds_in_issuance_order 7 completion
              (Client.scripted {| Client.scenarios := [] |} [text "3"; text "7"; text "11"])
              tt Hperm) as (Hgather & _ & Hpass).
  split; [exact Hperm|]. split; [vm_compute; reflexivity|].
  split; [exact Hgather|]. apply Hpass. reflexivity.
Defined.


(** * More on the server *)

Section FileServerFacts.

Import Server.

Implicit Types (m : Memory) (q : Call) (l : positive).

Variable math_cos math_sin : float → float.

Abbreviation invoke' := (Server.invoke math_cos math_sin).
Abbreviation serve_all' := (Server.serve_all math_cos math_sin).

Ltac open_handler m l m1 :=
  match goal with
  | |- context [get_client_state ?c m] =>
      let E := fresh "E" in
      let Hreg := fresh "Hreg" in
      let Hattr := fresh "Hattr" in
      let Hview := fresh "Hview" in
      let Hframe := fresh "Hframe" in
      destruct (get_client_state c m) as [l m1] eqn:E;
      destruct (get_client_state_spec _ _ _ _ E) as (Hreg & Hattr & Hview & Hframe)
  end.

Lemma write_file_view path content m :
  let c := getattr_client_id "write_file" m in
  view c (write_file path content m).2
  = {| view_trig_allowed := view_trig_allowed (view c m);
       view_special_number := view_special_number (view c m);
       view_files := <[path := content]> (view_files (view c m)) |}.
Proof.
  unfold write_file. open_handler m l m1. simpl.
  rewrite Hview. simpl. by apply view_store_files_own.
Qed.

Lemma write_file_attrs path content m :
  current_client_id (write_file path content m).2 = current_client_id m.
Proof. unfold write_file. open_handler m l m1. done. Qed.

Lemma summarize_file_prompt_outcome path m :
  (summarize_file_prompt path m).1
  = match view_files (view (getattr_client_id "summarize_file_prompt" m) m) !! path with
    | Some content =>
        Return ("Please summarize the following file content from " ++ path ++ ":"
                ++ String "010" (String "010" content))
    | None => Return ("File not found: " ++ path)
    end.
Proof.
  unfold summarize_file_prompt. open_handler m l m1. rewrite Hview. simpl.
  by destruct (files_at m1 l !! path).
Qed.

(** ** Files: write, read, delete *)

(** X1: for every path and content, reading [path] through [file_resource]
    right after [write_file(path, content)] returns [content], whether or not
    the path existed and whether or not the identity had a state before; both
    handlers run under the same identity [c]. *)
Theorem write_file_then_read (c path content : string) (m : Memory) :
  getattr_client_id "write_file" m = c →
  getattr_client_id "file_resource" m = c →
  (file_resource path (write_file path content m).2).1 = Return content.
Proof.
  intros Hw Hr. rewrite file_resource_outcome.
  assert (Hid : getattr_client_id "file_resource" (write_file path content m).2
                = getattr_client_id "write_file" m).
  { unfold getattr_client_id in *. by rewrite write_file_attrs, Hr, Hw. }
  rewrite Hid, write_file_view. simpl. by rewrite lookup_insert_eq.
Qed.

(** X2: [write_file(path, content)] changes the answer of
    [file_resource] for no other path: for [other ≠ path] the read returns
    the same content, or raises the same error, as before the write. *)
Theorem write_file_other_path (c path other content : string) (m : Memory) :
  getattr_client_id "write_file" m = c →
  getattr_client_id "file_resource" m = c →
  path ≠ other →
  (file_resource other (write_file path content m).2).1 = (file_resource other m).1.
Proof.
  intros Hw Hr Hne. rewrite !file_resource_outcome.
  assert (Hid : getattr_client_id "file_resource" (write_file path content m).2
                = getattr_client_id "write_file" m).
  { unfold getattr_client_id in *. by rewrite write_file_attrs, Hr, Hw. }
  rewrite Hid, write_file_view. simpl. rewrite lookup_insert_ne by done.
  by rewrite Hw, Hr.
Qed.

(** X3: when [path] is not a file of the identity, writing it and then
    deleting it succeeds and leaves the identity's state (flag, special
    number and files) as it was before the write. *)
Theorem write_then_delete_restores (c path content : string) (m : Memory) :
  getattr_client_id "write_file" m = c →
  getattr_client_id "delete_file" m = c →
  view_files (view c m) !! path = None →
  (delete_file path (write_file path content m).2).1
  = Return ("File " ++ path ++ " deleted successfully")
  ∧ view c (delete_file path (write_file path content m).2).2 = view c m.
Proof.
  intros Hw Hd Habs.
  assert (Hid : getattr_client_id "delete_file" (write_file path content m).2 = c).
  { unfold getattr_client_id in *. by rewrite write_file_attrs. }
  pose proof (write_file_view path content m) as Hwv. simpl in Hwv. rewrite Hw in Hwv.
  split.
  - rewrite delete_file_outcome, Hid, Hwv. simpl. by rewrite lookup_insert_eq.
  - pose proof (delete_file_view path (write_file path content m).2) as Hdv.
    simpl in Hdv. rewrite Hid in Hdv. rewrite Hdv, Hwv. simpl.
    rewrite delete_insert_id by done. by destruct (view c m).
Qed.

(** X4: [delete_file] is not idempotent: whatever the memory and the path,
    a second [delete_file(path)] right after a first one raises the error
    -32602 "File not found: <path>". *)
Theorem delete_file_twice (path : string) (m : Memory) :
  (delete_file path (delete_file path m).2).1
  = Raise {| Mcp.code := -32602; Mcp.message := "File not found: " ++ path |}.
Proof.
  assert (Hid : getattr_client_id "delete_file" (delete_file path m).2
                = getattr_client_id "delete_file" m).
  { unfold getattr_client_id in *. by rewrite delete_file_attrs. }
  pose proof (delete_file_view path m) as Hdv. simpl in Hdv.
  rewrite delete_file_outcome, Hid, Hdv. simpl. by rewrite lookup_delete_eq.
Qed.

(** X5: the prompt [summarize_file] never raises.  Where [file_resource]
    raises its not-found error for the path, the prompt returns that error's
    message as an ordinary text; where [file_resource] returns the content,
    the prompt returns the request to summarize it, with the path and the
    content in it. *)
Theorem summarize_file_prompt_soft_not_found (c path : string) (m : Memory) :
  getattr_client_id "summarize_file_prompt" m = c →
  getattr_client_id "file_resource" m = c →
  (∃ text, (summarize_file_prompt path m).1 = Return text)
  ∧ (∀ e, (file_resource path m).1 = Raise e →
       (summarize_file_prompt path m).1 = Return (Mcp.message e))
  ∧ (∀ content, (file_resource path m).1 = Return content →
       (summarize_file_prompt path m).1
       = Return ("Please summarize the following file content from " ++ path ++ ":"
                 ++ String "010" (String "010" content))).
Proof.
  intros Hs Hr. rewrite summarize_file_prompt_outcome, file_resource_outcome, Hs, Hr.
  destruct (view_files (view c m) !! path) as [content|]; repeat split; eauto.
  - intros e [=]. 
  - by intros ? [= <-].
  - by intros e [= <-].
  - intros ? [=].
Qed.

(** ** The trigonometry gate *)

(** X6: after [set_trig_allowed(allowed)], [cos(x)] and [sin(x)] under the
    same identity return [math.cos(x)] and [math.sin(x)] when [allowed] is
    true and raise the error -32603 "Trigonometric functions are disabled"
    when it is false; and for an identity that has no state yet both raise
    that error. *)
Theorem trig_gate (c : string) (allowed : bool) (x : float) (m : Memory) :
  getattr_client_id "set_trig_allowed" m = c →
  getattr_client_id "cos" m = c →
  getattr_client_id "sin" m = c →
  let disabled : outcome float :=
    Raise {| Mcp.code := -32603; Mcp.message := "Trigonometric functions are disabled" |} in
  (cos math_cos x (set_trig_allowed allowed m).2).1
  = (if allowed then Return (math_cos x) else disabled)
  ∧ (sin math_sin x (set_trig_allowed allowed m).2).1
    = (if allowed then Return (math_sin x) else disabled)
  ∧ (client_states m !! c = None →
     (cos math_cos x m).1 = disabled ∧ (sin math_sin x m).1 = disabled).
Proof.
  intros Hset Hcos Hsin disabled.
  pose proof (set_trig_allowed_view allowed m) as Hv. simpl in Hv. rewrite Hset in Hv.
  assert (Hc : getattr_client_id "cos" (set_trig_allowed allowed m).2 = c).
  { unfold getattr_client_id in *. by rewrite set_trig_allowed_attrs. }
  assert (Hs : getattr_client_id "sin" (set_trig_allowed allowed m).2 = c).
  { unfold getattr_client_id in *. by rewrite set_trig_allowed_attrs. }
  rewrite !cos_outcome, !sin_outcome, Hc, Hs, Hcos, Hsin, Hv. simpl.
  split; [done|]. split; [done|].
  intros Hfresh. by rewrite view_fresh.
Qed.

(** ** What each call does to the state *)

Lemma invoke_own_view (q : Call) (m : Memory) :
  let before := view (identity_of q m) m in
  let after := view (identity_of q m) (invoke' q m).2 in
  view_trig_allowed after
  = match q with
    | SetTrigAllowed allowed => allowed
    | _ => view_trig_allowed before
    end
  ∧ view_special_number after
    = match q with
      | WriteSpecialNumber value => value
      | _ => view_special_number before
      end
  ∧ view_files after
    = match q with
      | WriteFile path content => <[path := content]> (view_files before)
      | DeleteFile path => delete path (view_files before)
      | _ => view_files before
      end.
Proof.
  intros before after. subst before after. unfold identity_of.
  destruct q; simpl; rewrite returning_snd.
  - unfold cos. rewrite <- (view_get_client_state (getattr_client_id "cos" m) m).
    destruct (get_client_state _ m) as [l m1]. simpl. by destruct (negb _).
  - unfold sin. rewrite <- (view_get_client_state (getattr_client_id "sin" m) m).
    destruct (get_client_state _ m) as [l m1]. simpl. by destruct (negb _).
  - by rewrite set_trig_allowed_view.
  - by rewrite write_special_number_view.
  - unfold special_number_resource.
    rewrite <- (view_get_client_state (getattr_client_id "special_number_resource" m) m).
    by destruct (get_client_state _ m) as [l m1].
  - by rewrite write_file_view.
  - by rewrite delete_file_view.
  - unfold file_resource.
    rewrite <- (view_get_client_state (getattr_client_id "file_resource" m) m).
    destruct (get_client_state _ m) as [l m1]. simpl. by destruct (_ !! path).
  - unfold summarize_file_prompt.
    rewrite <- (view_get_client_state (getattr_client_id "summarize_file_prompt" m) m).
    destruct (get_client_state _ m) as [l m1]. simpl. by destruct (_ !! path).
Qed.

(** X7: the whole effect of one call on the state of the identity it runs
    under: the flag changes only by [set_trig_allowed], to its argument; the
    special number only by [write_special_number], to its argument; the
    files only by [write_file], which binds the path to the content, and by
    [delete_file], which removes the path (nothing, when it is absent). *)
Theorem effect_on_own_view (q : Call) (m : Memory) :
  let before := view (identity_of q m) m in
  let after := view (identity_of q m) (invoke' q m).2 in
  view_trig_allowed after
  = match q with
    | SetTrigAllowed allowed => allowed
    | _ => view_trig_allowed before
    end
  ∧ view_special_number after
    = match q with
      | WriteSpecialNumber value => value
      | _ => view_special_number before
      end
  ∧ view_files after
    = match q with
      | WriteFile path content => <[path := content]> (view_files before)
      | DeleteFile path => delete path (view_files before)
      | _ => view_files before
      end.
Proof. apply invoke_own_view. Qed.


(** ** The state store over time *)


Lemma invoke_next_loc q m :
  next_loc (invoke' q m).2 = next_loc (get_client_state (identity_of q m) m).2.
Proof.
  unfold identity_of.
  destruct q; simpl;
    unfold returning, cos, sin, set_trig_allowed, write_special_number,
      special_number_resource, write_file, delete_file, file_resource,
      summarize_file_prompt;
    open_handler m l m1; simpl; repeat case_match; simpl; done.
Qed.

(** X10: a call adds at most the identity it runs under to
    [client_states] and never removes or replaces an entry: every identity
    keeps the state dict it had. *)
Theorem client_states_only_grow (q : Call) (m : Memory) :
  dom (client_states (invoke' q m).2) = {[identity_of q m]} ∪ dom (client_states m)
  ∧ (∀ c l, client_states m !! c = Some l → client_states (invoke' q m).2 !! c = Some l)
  ∧ (next_loc m ≤ next_loc (invoke' q m).2)%positive.
Proof.
  rewrite invoke_next_loc, invoke_client_states.
  split; [apply get_client_state_dom|].
  unfold get_client_state.
  destruct (client_states m !! identity_of q m) eqn:E; simpl.
  - split; [done|lia].
  - split; [|lia]. intros c l Hc. rewrite lookup_insert_ne; [done|].
    intros Heq. subst c. by rewrite E in Hc.
Qed.

End FileServerFacts.


Section ContextToolFacts.

Import Server.

Variable float_eval : string → option float.

(** X11: when [eval_with_sampling] raises, the error is -32603 "Cannot
    evaluate expression: <expression>", the expression is neither of the two
    built-in ones and [float(eval(expression))] failed, and the only progress
    report made is the first one, "Starting evaluation": the report
    "Evaluation complete" is not made. *)
Theorem eval_with_sampling_failure {W} (expression : string) (e : Mcp.ErrorData)
    (env : Env CtxE W) (w : W) :
  value (eval_with_sampling float_eval expression) env w = Raise e →
  events (eval_with_sampling float_eval expression) env w
  = [Ev (ReportProgress 0 100 "Starting evaluation") tt]
  ∧ e = {| Mcp.code := -32603;
           Mcp.message := "Cannot evaluate expression: " ++ expression |}
  ∧ float_eval expression = None
  ∧ expression ≠ "2 + 2 * 3" ∧ expression ≠ "(2 + 3) * (4 + 5)".
Proof.
  unfold value, events, eval_with_sampling.
  rewrite exec_report_progress. cbv zeta.
  destruct (String.eqb expression "2 + 2 * 3") eqn:E1;
    [rewrite exec_report_progress; discriminate|].
  destruct (String.eqb expression "(2 + 3) * (4 + 5)") eqn:E2;
    [rewrite exec_report_progress; discriminate|].
  destruct (float_eval expression);
    [rewrite exec_report_progress; discriminate|].
  simpl. intros [= <-]. apply String.eqb_neq in E1, E2. done.
Qed.

(** ** [timeout] *)

Lemma timeout_steps_exec {W} (n : nat) (i total_steps : Z) (env : Env TimeoutE W) (w : W) :
  (exec (timeout_steps n i total_steps) env w).1
  = (((λ k, i + Z.of_nat k) <$> seq 0 n)
     ≫= λ j, [Ev (Ctx (ReportProgress j total_steps
                          ("Step " ++ Py.str_int (j + 1) ++ "/" ++ Py.str_int total_steps)))
                 tt;
              Ev (Sleep 0x1.999999999999ap-4%float) tt],
     tt).
Proof.
  revert i w. induction n as [|n IH]; intros i w; [done|].
  cbn [timeout_steps]. simpl exec.
  destruct (env _ (Ctx _) w) as [[] w1].
  destruct (env _ (Sleep _) w1) as [[] w2].
  specialize (IH (i + 1) w2).
  destruct (exec (timeout_steps n (i + 1) total_steps) env w2) as [[tr []] w3].
  simpl in IH. injection IH as ->. simpl.
  rewrite Z.add_0_r. do 3 f_equal.
  rewrite <- fmap_S_seq, <- list_fmap_compose.
  f_equal. apply list_fmap_ext. intros _ k _. simpl. lia.
Qed.

Lemma length_bind_pair {A B} (l : list A) (f g : A → B) :
  length (l ≫= λ i, [f i; g i]) = (2 * length l)%nat.
Proof.
  induction l as [|x l IH]; [done|].
  change (length ([f x; g x] ++ (l ≫= λ i, [f i; g i]))%list = (2 * length (x :: l))%nat).
  rewrite length_app, IH. simpl. lia.
Qed.

Lemma timeout_exec {W} (duration : Z) (env : Env TimeoutE W) (w : W) :
  (exec (timeout duration) env w).1
  = (((seqZ 0 (duration * 10)
       ≫= λ i, [Ev (Ctx (ReportProgress i (duration * 10)
                          ("Step " ++ Py.str_int (i + 1) ++ "/"
                           ++ Py.str_int (duration * 10)))) tt;
                Ev (Sleep 0x1.999999999999ap-4%float) tt])
      ++ [Ev (Ctx (ReportProgress (duration * 10) (duration * 10) "Completed")) tt])%list,
     Return ("Completed after " ++ Py.str_int duration ++ " seconds")).
Proof.
  unfold timeout. cbv zeta. rewrite exec_bind.
  pose proof (timeout_steps_exec (Z.to_nat (duration * 10)) 0 (duration * 10) env w) as Hs.
  destruct (exec (timeout_steps _ 0 (duration * 10)) env w) as [[tr []] w1].
  simpl in Hs. injection Hs as ->. simpl.
  destruct (env _ (Ctx _) w1) as [[] w2]. simpl.
  f_equal. f_equal. f_equal. unfold seqZ.
  apply list_fmap_ext. intros _ k _. lia.
Qed.

(** X12: [timeout(duration)] makes, for each [i] from 0 below
    [duration * 10], the progress report [(i, duration * 10, "Step
    <i+1>/<total>")] followed by a sleep of 0.1 seconds, then the report
    [(total, total, "Completed")], and returns "Completed after <duration>
    seconds"; whatever the replies, that is [2 * total + 1] actions. *)
Theorem timeout_progress_events {W} (duration : Z) (env : Env TimeoutE W) (w : W) :
  let total_steps := duration * 10 in
  events (timeout duration) env w
  = ((seqZ 0 total_steps
      ≫= λ i, [Ev (Ctx (ReportProgress i total_steps
                           ("Step " ++ Py.str_int (i + 1) ++ "/" ++ Py.str_int total_steps)))
                  tt;
               Ev (Sleep 0x1.999999999999ap-4%float) tt])
     ++ [Ev (Ctx (ReportProgress total_steps total_steps "Completed")) tt])%list
  ∧ value (timeout duration) env w
    = Return ("Completed after " ++ Py.str_int duration ++ " seconds")
  ∧ length (events (timeout duration) env w) = (2 * Z.to_nat total_steps + 1)%nat.
Proof.
  intros total_steps. subst total_steps.
  unfold events, value. rewrite timeout_exec. simpl.
  split; [done|]. split; [done|].
  rewrite length_app, length_bind_pair. simpl.
  unfold seqZ. rewrite length_fmap, length_seq. lia.
Qed.

(** X13: for a duration of zero or less, [timeout] neither sleeps nor
    reports a step: its only action is the report "Completed", made with the
    total [duration * 10], which is then zero or negative. *)
Theorem timeout_without_steps {W} (duration : Z) (env : Env TimeoutE W) (w : W) :
  (duration ≤ 0)%Z →
  events (timeout duration) env w
  = [Ev (Ctx (ReportProgress (duration * 10) (duration * 10) "Completed")) tt].
Proof.
  intros Hneg. unfold events. rewrite timeout_exec. simpl.
  unfold seqZ. by replace (Z.to_nat (duration * 10)) with O by lia.
Qed.

End ContextToolFacts.


(** * Strings in messages *)

Lemma lower_app (a b : string) : Py.lower (a ++ b) = Py.lower a ++ Py.lower b.
Proof. induction a as [|c a IH]; simpl; [done|]. by rewrite IH. Qed.

Lemma contains_app_r (needle a b : string) :
  Py.contains needle b = true → Py.contains needle (a ++ b) = true.
Proof.
  intros H. induction a as [|c a IH]; [done|].
  change (String c a ++ b) with (String c (a ++ b)).
  cbn [Py.contains]. rewrite IH. by destruct (Py.startswith needle _).
Qed.

(** * [main] of the server *)

Section ServerMainFacts.

Import Server.


(** X14: when the catalog loads and has no server of the name given,
    [main] of the server prints one line on stderr, whose lower-cased text
    contains "not found", starts no server, and exits with status 1. *)
Theorem server_main_unknown_name {W} (args : Args) (data : ScenariosData)
    (env : Env MainE W) (w : W) :
  (env _ (LoadScenariosData (scenarios_data args)) w).1 = LoadOk data →
  servers data !! server_name args = None →
  let text := "Error: Server '" ++ server_name args ++ "' not found in scenarios data" in
  events (main args) env w
  = [Ev (LoadScenariosData (scenarios_data args)) (LoadOk data); Ev (PrintErr text) tt]
  ∧ value (main args) env w = 1
  ∧ Py.contains "not found" (Py.lower text) = true.
Proof.
  intros Hload Hmiss text. unfold events, value, main. simpl.
  destruct (env _ (LoadScenariosData _) w) as [d w1]. simpl in Hload. subst d.
  rewrite Hmiss. simpl. destruct (env _ (PrintErr _) w1) as [[] w2]. simpl.
  split; [done|]. split; [done|].
  subst text. rewrite !lower_app.
  apply contains_app_r, contains_app_r. reflexivity.
Qed.





End ServerMainFacts.


(** * [str] and [int] of an integer *)

Ltac eval_digit :=
  match goal with
  | |- context [Py.digit_of ?c] =>
      let v := eval vm_compute in (Py.digit_of c) in
      change (Py.digit_of c) with v
  end.

Lemma int_digits_acc (l : Decimal.uint) (acc : positive) :
  Py.int_digits (NilEmpty.string_of_uint l) (Z.pos acc) true
  = Some (Z.pos (Pos.of_uint_acc l acc)).
Proof.
  revert acc. induction l as [|l IH|l IH|l IH|l IH|l IH|l IH|l IH|l IH|l IH|l IH];
    intros acc; [done|..];
    cbn [NilEmpty.string_of_uint Py.int_digits Pos.of_uint_acc];
    eval_digit; cbv iota beta; rewrite <- IH; f_equal; lia.
Qed.

Lemma int_digits_uint (d : Decimal.uint) (after_digit : bool) :
  d ≠ Decimal.Nil ∨ after_digit = true →
  Py.int_digits (NilEmpty.string_of_uint d) 0 after_digit
  = Some (Z.of_N (Pos.of_uint d)).
Proof.
  revert after_digit.
  induction d as [|l IH|l IH|l IH|l IH|l IH|l IH|l IH|l IH|l IH|l IH];
    intros after_digit Hd;
    [by destruct Hd as [Hd| ->]
    |cbn [NilEmpty.string_of_uint Py.int_digits Pos.of_uint];
     eval_digit; cbv iota beta; change (10 * 0 + 0) with 0; apply IH; by right
    |cbn [NilEmpty.string_of_uint Py.int_digits Pos.of_uint];
     eval_digit; cbv iota beta;
     match goal with
     | |- context [10 * 0 + ?d] =>
         let v := eval vm_compute in (10 * 0 + d) in change (10 * 0 + d) with v
     end;
     rewrite int_digits_acc; reflexivity ..].
Qed.

Lemma lstrip_digits (d : Decimal.uint) :
  Py.lstrip (NilEmpty.string_of_uint d) = NilEmpty.string_of_uint d.
Proof. by destruct d. Qed.

(** [int(str(n)) == n] *)
Lemma int_str_str_int (n : Z) : Py.int_str (Py.str_int n) = Some n.
Proof.
  unfold Py.str_int, Py.int_str.
  destruct n as [|p|p]; [reflexivity|..]; simpl Z.to_int; cbn [NilZero.string_of_int].
  - pose proof (DecimalPos.Unsigned.to_uint_nonnil p) as Hnil.
    pose proof (DecimalPos.Unsigned.of_to p) as Hof.
    assert (Hs : NilZero.string_of_uint (Pos.to_uint p)
                 = NilEmpty.string_of_uint (Pos.to_uint p)).
    { by destruct (Pos.to_uint p). }
    rewrite Hs, lstrip_digits.
    assert (Hd : Py.int_digits (NilEmpty.string_of_uint (Pos.to_uint p)) 0 false
                 = Some (Z.pos p)).
    { rewrite int_digits_uint by (by left). by rewrite Hof. }
    destruct (Pos.to_uint p); try done.
  - pose proof (DecimalPos.Unsigned.to_uint_nonnil p) as Hnil.
    pose proof (DecimalPos.Unsigned.of_to p) as Hof.
    assert (Hs : NilZero.string_of_uint (Pos.to_uint p)
                 = NilEmpty.string_of_uint (Pos.to_uint p)).
    { by destruct (Pos.to_uint p). }
    rewrite Hs. cbn [Py.lstrip].
    change (Py.is_space "-") with false. cbv iota.
    rewrite int_digits_uint by (by left). by rewrite Hof.
Qed.

(** * More on the client *)

Section ScenarioFacts.

Import Client.

(** ** Connecting *)

(** X16: [create_client_connection] returns a connection exactly when the
    transport is one of "stdio", "sse" and "streamable-http" and at least one
    argument follows it; for stdio the first argument is the command and the
    rest are its arguments, for the two others the first argument is the URL
    and the rest is ignored. *)
Theorem create_client_connection_ok (transport : string) (args : list string) :
  ((∃ connection, create_client_connection transport args = Ok connection)
   ↔ transport ∈ ["stdio"; "sse"; "streamable-http"] ∧ args ≠ [])
  ∧ (∀ first rest,
       args = first :: rest →
       (transport = "stdio" →
        create_client_connection transport args = Ok (stdio_client first rest))
       ∧ (transport = "sse" →
          create_client_connection transport args = Ok (sse_client first))
       ∧ (transport = "streamable-http" →
          create_client_connection transport args = Ok (streamablehttp_client first))).
Proof.
  split.
  - unfold create_client_connection.
    destruct (String.eqb transport "stdio") eqn:E1;
      [apply String.eqb_eq in E1 as ->;
       destruct args; split;
       [by intros [? [=]]|by intros [_ ?]|intros _; split; [set_solver|done]|eauto]|].
    destruct (String.eqb transport "sse") eqn:E2;
      [apply String.eqb_eq in E2 as ->;
       destruct args; split;
       [by intros [? [=]]|by intros [_ ?]|intros _; split; [set_solver|done]|eauto]|].
    destruct (String.eqb transport "streamable-http") eqn:E3;
      [apply String.eqb_eq in E3 as ->;
       destruct args; split;
       [by intros [? [=]]|by intros [_ ?]|intros _; split; [set_solver|done]|eauto]|].
    apply String.eqb_neq in E1, E2, E3.
    split; [by intros [? [=]]|]. intros [Hin _]. set_solver.
  - intros first rest ->. repeat split; by intros ->.
Qed.

Variable float_str : string → option float.

Abbreviation run_scenario' := (Client.run_scenario float_str).
Abbreviation main' := (Client.main float_str).
Abbreviation dispatch' := (Client.dispatch float_str).

(** ** Running programs, continued *)

Lemma value_do {E A R W} (e : E R) (k : R → Prog E A) (env : Env E W) (w : W) :
  value (Do e k) env w = value (k (env _ e w).1) env (env _ e w).2.
Proof.
  unfold value. simpl. destruct (env _ e w) as [r w']. simpl.
  by destruct (exec (k r) env w') as [[tr a] w''].
Qed.

Lemma value_bind_ret {E A B W} (p : Prog E A) (f : A → B) (env : Env E W) (w : W) :
  value (p ≫= λ a, Ret (f a)) env w = f (value p env w).
Proof.
  unfold value. rewrite exec_bind.
  by destruct (exec p env w) as [[tr a] w'].
Qed.

Lemma events_bind_ret {E A B W} (p : Prog E A) (f : A → B) (env : Env E W) (w : W) :
  events (p ≫= λ a, Ret (f a)) env w = events p env w.
Proof.
  unfold events. rewrite exec_bind.
  destruct (exec p env w) as [[tr a] w']. simpl. by rewrite app_nil_r.
Qed.

Lemma print_reply {W} (env : Env ClientE W) to_stderr line (w : W) :
  (env _ (Print to_stderr line) w).1 = tt.
Proof. by destruct (env _ (Print to_stderr line) w).1. Qed.


(** X18: when entering the connection raises, [run_scenario] prints
    "Error: Failed to connect or execute scenario: <e>" on stderr and returns
    [False]; no session is opened and no scenario runs. *)
Theorem run_scenario_connection_failure {W} (scenario_id : Z) (client_id transport : string)
    (transport_args : list string) (scenarios_data : ScenariosData) (scenario : Scenario)
    (connection : Connection) (e : Exn) (env : Env ClientE W) (w : W) :
  find_scenario scenario_id scenarios_data = Some scenario →
  Py.in_list client_id (client_ids scenario) = true →
  create_client_connection transport transport_args = Ok connection →
  let running :=
    Print false (Text ("Running scenario " ++ Py.str_int scenario_id ++ ": "
                       ++ description scenario)) in
  (env _ (Enter connection) (env _ running w).2).1 = Raised e →
  events (run_scenario' scenario_id client_id (transport :: transport_args)
            scenarios_data) env w
  = [Ev running tt;
     Ev (Enter connection) (Raised e);
     Ev (Print true (TextExn "Error: Failed to connect or execute scenario: " e)) tt]
  ∧ value (run_scenario' scenario_id client_id (transport :: transport_args)
             scenarios_data) env w
    = Ok false.
Proof.
  intros Hfind Hin Hc running Hraise. subst running.
  rewrite (run_scenario_opens_session float_str _ _ _ _ _ _ _ Hfind Hin Hc).
  rewrite !events_do, !value_do, print_reply, Hraise. cbv iota.
  rewrite events_do, value_do, print_reply. done.
Qed.

(** ** A catalogued scenario without an executor *)

(** X19: for a scenario that is in the catalog but has no executor (an id
    other than 1 to 6, 24 and 25), [run_scenario] still connects, opens a
    session without an elicitation callback and initializes it, and only then
    prints "Error: Scenario <id> not implemented" on stderr and returns
    [False]. *)
Theorem run_scenario_not_implemented {W} (scenario_id : Z) (client_id transport : string)
    (transport_args : list string) (scenarios_data : ScenariosData) (scenario : Scenario)
    (connection : Connection) (env : Env ClientE W) (w : W) :
  find_scenario scenario_id scenarios_data = Some scenario →
  Py.in_list client_id (client_ids scenario) = true →
  create_client_connection transport transport_args = Ok connection →
  scenario_id ∉ [1; 2; 3; 4; 5; 6; 24; 25]%Z →
  let running :=
    Print false (Text ("Running scenario " ++ Py.str_int scenario_id ++ ": "
                       ++ description scenario)) in
  let w1 := (env _ running w).2 in
  let w2 := (env _ (Enter connection) w1).2 in
  let w3 := (env _ (OpenSession None) w2).2 in
  (env _ (Enter connection) w1).1 = Ok tt →
  (env _ (OpenSession None) w2).1 = Ok tt →
  (env _ Initialize w3).1 = Ok tt →
  events (run_scenario' scenario_id client_id (transport :: transport_args)
            scenarios_data) env w
  = [Ev running tt;
     Ev (Enter connection) (Ok tt);
     Ev (OpenSession None) (Ok tt);
     Ev Initialize (Ok tt);
     Ev (Print true (Text ("Error: Scenario " ++ Py.str_int scenario_id
                           ++ " not implemented"))) tt]
  ∧ value (run_scenario' scenario_id client_id (transport :: transport_args)
             scenarios_data) env w
    = Ok false.
Proof.
  intros Hfind Hin Hc Hid running w1 w2 w3 Henter Hopen Hinit.
  rewrite !not_elem_of_cons in Hid.
  destruct Hid as (H1 & H2 & H3 & H4 & H5 & H6 & H24 & H25 & _).
  apply Z.eqb_neq in H1, H2, H3, H4, H5, H6, H24, H25.
  assert (Hcb : elicitation_callback scenario_id = None).
  { unfold elicitation_callback. by rewrite H2, H24. }
  assert (Hd : dispatch' scenario_id client_id
               = failed_text ("Error: Scenario " ++ Py.str_int scenario_id
                              ++ " not implemented")).
  { unfold dispatch. by rewrite H1, H2, H3, H4, H5, H6, H24, H25. }
  rewrite (run_scenario_opens_session float_str _ _ _ _ _ _ _ Hfind Hin Hc).
  rewrite Hcb, Hd. subst running w1 w2 w3.
  rewrite !events_do, !value_do, print_reply, Henter. cbv iota.
  rewrite !events_do, !value_do, Hopen. cbv iota.
  rewrite !events_do, !value_do, Hinit. cbv iota.
  rewrite events_bind_ret, value_bind_ret.
  unfold failed_text. change (perform ?e ≫= ?f) with (Do e f).
  rewrite events_do, value_do, print_reply. done.
Qed.

(** ** What a scenario reports *)

Lemma value_passed {W} text (env : Env ClientE W) (w : W) :
  value (passed text) env w = true.
Proof. unfold passed. change (perform ?e ≫= ?f) with (Do e f). by rewrite value_do. Qed.

Lemma value_failed {W} text e (env : Env ClientE W) (w : W) :
  value (failed text e) env w = false.
Proof. unfold failed. change (perform ?e ≫= ?f) with (Do e f). by rewrite value_do. Qed.

Lemma value_failed_text {W} text (env : Env ClientE W) (w : W) :
  value (failed_text text) env w = false.
Proof. unfold failed_text. change (perform ?e ≫= ?f) with (Do e f). by rewrite value_do. Qed.

Lemma reported_print {W} to_stderr line (env : Env ClientE W) (w : W) :
  reported (events (perform (Print to_stderr line);; mret (negb to_stderr)) env w)
    (value (perform (Print to_stderr line);; mret (negb to_stderr)) env w).
Proof.
  change (perform ?e ≫= ?f) with (Do e f).
  rewrite events_do, value_do, print_reply.
  exists (Ev (Print to_stderr line) tt). split; [done|]. simpl.
  by destruct to_stderr.
Qed.

Lemma reported_passed {W} text (env : Env ClientE W) (w : W) :
  reported (events (passed text) env w) (value (passed text) env w).
Proof. apply (reported_print false). Qed.

Lemma reported_failed {W} text e (env : Env ClientE W) (w : W) :
  reported (events (failed text e) env w) (value (failed text e) env w).
Proof. apply (reported_print true). Qed.

Lemma reported_failed_text {W} text (env : Env ClientE W) (w : W) :
  reported (events (failed_text text) env w) (value (failed_text text) env w).
Proof. apply (reported_print true). Qed.

Lemma reported_perform {R W} (e : ClientE R) (k : R → Prog ClientE bool)
    (env : Env ClientE W) (w : W) :
  reported (events (k (env _ e w).1) env (env _ e w).2)
    (value (k (env _ e w).1) env (env _ e w).2) →
  reported (events (perform e ≫= k) env w) (value (perform e ≫= k) env w).
Proof.
  change (perform e ≫= k) with (Do e k). rewrite events_do, value_do.
  intros (ev & Hlast & Hprint). exists ev. split; [|done].
  by rewrite last_cons, Hlast.
Qed.

Ltac report :=
  repeat first
    [ progress cbv beta zeta
    | apply reported_passed
    | apply reported_failed
    | apply reported_failed_text
    | apply reported_perform
    | match goal with
      | |- reported (events (match ?x with _ => _ end) _ _) _ => destruct x
      end ].

(** X20: whatever the server answers, the scenario run inside the session
    ends by printing its result: the last action is a print, on stderr when
    the result is [False] and on stdout when it is [True].  The one exception
    is scenario 3 for a client id other than "client1" and "client2", which
    returns [True] without any action at all. *)
Theorem dispatch_reports {W} (scenario_id : Z) (client_id : string)
    (env : Env ClientE W) (w : W) :
  let idle := scenario_id = 3%Z ∧ client_id ≠ "client1" ∧ client_id ≠ "client2" in
  (idle → exec (dispatch' scenario_id client_id) env w = ([], true, w))
  ∧ (¬ idle →
     reported (events (dispatch' scenario_id client_id) env w)
       (value (dispatch' scenario_id client_id) env w)).
Proof.
  intros idle. split.
  - intros (-> & H1 & H2). apply String.eqb_neq in H1, H2.
    unfold dispatch, execute_scenario_3. cbv zeta. by rewrite H1, H2.
  - intros Hbusy. unfold dispatch.
    destruct (scenario_id =? 1)%Z; [unfold execute_scenario_1; report|].
    destruct (scenario_id =? 2)%Z; [unfold execute_scenario_2; report|].
    destruct (scenario_id =? 3)%Z eqn:E3.
    { unfold execute_scenario_3. cbv zeta.
      destruct (String.eqb client_id "client1") eqn:Ec1; [report|].
      destruct (String.eqb client_id "client2") eqn:Ec2; [report|].
      exfalso. apply Hbusy. split; [by apply Z.eqb_eq|].
      split; by apply String.eqb_neq. }
    destruct (scenario_id =? 4)%Z; [unfold execute_scenario_4; report|].
    destruct (scenario_id =? 5)%Z; [unfold execute_scenario_5; report|].
    destruct (scenario_id =? 6)%Z; [unfold execute_scenario_6; report|].
    destruct (scenario_id =? 24)%Z; [unfold execute_scenario_24; report|].
    destruct (scenario_id =? 25)%Z; [unfold execute_scenario_25; report|].
    report.
Qed.

(** ** When the scenarios with a decline and with concurrent calls pass *)



(** X22: scenario 24 passes exactly when the call of [ambiguous_add]
    returns a result flagged as an error whose content is empty or begins
    with a text containing "declined" in any case, or raises an [McpError]
    whose code is -32000 or whose message contains "declined" in any
    case. *)
Theorem scenario_24_passes_iff {W} (env : Env ClientE W) (w : W) :
  let reply := (env _ (CallTool "ambiguous_add" [("a", AInt 10)]) w).1 in
  value execute_scenario_24 env w = true
  ↔ (∃ result,
       reply = Ok result
       ∧ isError result = true
       ∧ (content result = []
          ∨ ∃ text rest, content result = TextContent text :: rest
                         ∧ Py.contains "declined" (Py.lower text) = true))
    ∨ (∃ error,
         reply = Raised (McpError error)
         ∧ (Mcp.code error = (-32000)%Z
            ∨ Py.contains "declined" (Py.lower (Mcp.message error)) = true)).
Proof.
  intros reply. unfold execute_scenario_24.
  change (perform ?e ≫= ?f) with (Do e f). rewrite value_do. fold reply.
  destruct reply as [e|result].
  - destruct e as [error| | | | | | | |];
      try (rewrite value_failed; split; [discriminate|];
           intros [(? & [=] & _)|(? & [=] & _)]).
    destruct (Mcp.code error =? -32000)%Z eqn:Ecode; simpl orb; cbv iota.
    { rewrite value_passed. split; [|done]. intros _. right. exists error.
      split; [done|]. left. by apply Z.eqb_eq. }
    apply Z.eqb_neq in Ecode.
    destruct (Py.contains "declined" (Py.lower (Mcp.message error))) eqn:Emsg; cbv iota.
    { rewrite value_passed. split; [|done]. intros _. right. exists error. eauto. }
    rewrite value_failed. split; [discriminate|].
    intros [(? & [=] & _)|(error' & [= <-] & [?|?])]; [done|congruence].
  - destruct (isError result) eqn:Eerr.
    2:{ rewrite value_failed_text. split; [discriminate|].
        intros [(r & [= <-] & ? & _)|(? & [=] & _)]. congruence. }
    destruct (content result) as [|[text|] rest] eqn:Econtent.
    + rewrite value_passed. split; [|done]. intros _. left. exists result. eauto.
    + destruct (Py.contains "declined" (Py.lower text)) eqn:Etext.
      * rewrite value_passed. split; [|done]. intros _. left. exists result.
        split; [done|]. split; [done|]. right. eauto.
      * rewrite value_failed_text. split; [discriminate|].
        intros [(r & [= <-] & _ & [?|(t & rest' & ? & ?)])|(? & [=] & _)];
          congruence.
    + rewrite value_failed. split; [discriminate|].
      intros [(r & [= <-] & _ & [?|(t & rest' & ? & ?)])|(? & [=] & _)];
        congruence.
Qed.

(** ** [main] of the client *)

(** X23: when the catalog loads and has no scenario of the id given,
    [main] of the client prints one line on stderr, whose lower-cased text
    contains "not found", and exits with status 1 without calling
    [run_scenario]. *)
Theorem client_main_unknown_scenario {W} (args : Args) (data : ScenariosData)
    (env : Env ClientE W) (w : W) :
  (env _ (LoadScenariosData (arg_scenarios_data args)) w).1 = Ok data →
  find_scenario (arg_scenario_id args) data = None →
  let text := "Error: Scenario " ++ Py.str_int (arg_scenario_id args) ++ " not found" in
  events (main' args) env w
  = [Ev (LoadScenariosData (arg_scenarios_data args)) (Ok data);
     Ev (Print true (Text text)) tt]
  ∧ value (main' args) env w = 1%Z
  ∧ Py.contains "not found" (Py.lower text) = true.
Proof.
  intros Hload Hfind text. unfold Client.main.
  change (perform ?e ≫= ?f) with (Do e f).
  rewrite events_do, value_do, Hload. cbv beta iota. rewrite Hfind.
  change (perform ?e ≫= ?f) with (Do e f).
  rewrite events_do, value_do, print_reply.
  split; [done|]. split; [done|].
  subst text. rewrite !lower_app. apply contains_app_r, contains_app_r. reflexivity.
Qed.

(** X24: when no server description follows the options, [main] of the
    client, for a scenario of the catalog the client takes part in, prints
    the two lines "Executing scenario ..." and "Running scenario ...", then
    "Error: Client failed: <IndexError>" on stderr, and exits with status 1;
    it makes no protocol call. *)
Theorem client_main_without_server_desc {W} (args : Args) (data : ScenariosData)
    (scenario : Scenario) (env : Env ClientE W) (w : W) :
  (env _ (LoadScenariosData (arg_scenarios_data args)) w).1 = Ok data →
  find_scenario (arg_scenario_id args) data = Some scenario →
  Py.in_list (arg_id args) (client_ids scenario) = true →
  arg_server_desc args = [] →
  events (main' args) env w
  = [Ev (LoadScenariosData (arg_scenarios_data args)) (Ok data);
     Ev (Print false (Text ("Executing scenario " ++ Py.str_int (arg_scenario_id args)
                            ++ ": " ++ description scenario))) tt;
     Ev (Print false (Text ("Running scenario " ++ Py.str_int (arg_scenario_id args)
                            ++ ": " ++ description scenario))) tt;
     Ev (Print true (TextExn "Error: Client failed: " IndexError)) tt]
  ∧ value (main' args) env w = 1%Z.
Proof.
  intros Hload Hfind Hin Hdesc. unfold Client.main, Client.run_scenario.
  rewrite Hdesc.
  change (perform ?e ≫= ?f) with (Do e f).
  rewrite events_do, value_do, Hload. cbv beta iota. rewrite Hfind, Hin.
  simpl negb. cbv iota.
  unfold events, value. simpl.
  repeat match goal with
         | |- context [env unit (Print ?b ?l) ?w0] =>
             destruct (env unit (Print b l) w0) as [[] ?]; simpl
         end.
  done.
Qed.

End ScenarioFacts.

(** * The special number, from the server to the client *)

(** X25: what the server's [special_number_resource] returns is a text the
    client's [int(contents[0].text)] converts without error, to the special
    number of the identity the resource ran under ([int(str(n)) == n]). *)
Theorem special_number_text_parses (m : Server.Memory) :
  ∃ text,
    (Server.special_number_resource m).1 = Return text
    ∧ Client.resource_int [Client.TextResourceContents text]
      = Client.Ok (Server.view_special_number
                     (Server.view (Server.getattr_client_id "special_number_resource" m) m)).
Proof.
  eexists. split; [apply special_number_resource_outcome|].
  unfold Client.resource_int. by rewrite int_str_str_int.
Qed.


(** * More instances *)

Lemma write_file_then_read_witness :
  Server.getattr_client_id "write_file" Server.startup = "default"
  ∧ Server.getattr_client_id "file_resource" Server.startup = "default"
  ∧ (Server.file_resource "/notes.txt"
       (Server.write_file "/notes.txt" "hello" Server.startup).2).1
    = Return "hello".
Proof.
  split; [reflexivity|]. split; [reflexivity|].
  exact (write_file_then_read "default" "/notes.txt" "hello" Server.startup
           eq_refl eq_refl).
Defined.

Lemma write_file_other_path_witness :
  Server.getattr_client_id "write_file" Server.startup = "default"
  ∧ Server.getattr_client_id "file_resource" Server.startup = "default"
  ∧ "/notes.txt" ≠ "/readme.txt"
  ∧ (Server.file_resource "/readme.txt"
       (Server.write_file "/notes.txt" "hello" Server.startup).2).1
    = (Server.file_resource "/readme.txt" Server.startup).1.
Proof.
  assert (Hne : "/notes.txt" ≠ "/readme.txt") by discriminate.
  split; [reflexivity|]. split; [reflexivity|]. split; [exact Hne|].
  exact (write_file_other_path "default" "/notes.txt" "/readme.txt" "hello"
           Server.startup eq_refl eq_refl Hne).
Defined.

Lemma write_then_delete_restores_witness :
  Server.getattr_client_id "write_file" Server.startup = "default"
  ∧ Server.getattr_client_id "delete_file" Server.startup = "default"
  ∧ Server.view_files (Server.view "default" Server.startup) !! "/notes.txt" = None
  ∧ (Server.delete_file "/notes.txt"
       (Server.write_file "/notes.txt" "hello" Server.startup).2).1
    = Return "File /notes.txt deleted successfully"
  ∧ Server.view "default"
      (Server.delete_file "/notes.txt"
         (Server.write_file "/notes.txt" "hello" Server.startup).2).2
    = Server.view "default" Server.startup.
Proof.
  assert (Habsent : Server.view_files (Server.view "default" Server.startup)
                      !! "/notes.txt" = None) by (vm_compute; reflexivity).
  split; [reflexivity|]. split; [reflexivity|]. split; [exact Habsent|].
  exact (write_then_delete_restores "default" "/notes.txt" "hello" Server.startup
           eq_refl eq_refl Habsent).
Defined.

Lemma summarize_file_prompt_soft_not_found_witness :
  Server.getattr_client_id "summarize_file_prompt" Server.startup = "default"
  ∧ Server.getattr_client_id "file_resource" Server.startup = "default"
  ∧ (Server.file_resource "/missing.txt" Server.startup).1
    = Raise {| Mcp.code := -32602; Mcp.message := "File not found: /missing.txt" |}
  ∧ (Server.summarize_file_prompt "/missing.txt" Server.startup).1
    = Return "File not found: /missing.txt".
Proof.
  destruct (summarize_file_prompt_soft_not_found "default" "/missing.txt" Server.startup
              eq_refl eq_refl) as (_ & Hsoft & _).
  assert (Hraise : (Server.file_resource "/missing.txt" Server.startup).1
                   = Raise {| Mcp.code := -32602;
                              Mcp.message := "File not found: /missing.txt" |})
    by (vm_compute; reflexivity).
  split; [reflexivity|]. split; [reflexivity|]. split; [exact Hraise|].
  exact (Hsoft _ Hraise).
Defined.

Lemma trig_gate_witness :
  Server.getattr_client_id "set_trig_allowed" Server.startup = "default"
  ∧ Server.getattr_client_id "cos" Server.startup = "default"
  ∧ Server.getattr_client_id "sin" Server.startup = "default"
  ∧ (Server.cos PrimFloat.abs 0%float
       (Server.set_trig_allowed true Server.startup).2).1
    = Return (PrimFloat.abs 0%float)
  ∧ Server.client_states Server.startup !! "default" = None
  ∧ (Server.sin PrimFloat.abs 0%float Server.startup).1
    = Raise {| Mcp.code := -32603;
               Mcp.message := "Trigonometric functions are disabled" |}.
Proof.
  destruct (trig_gate PrimFloat.abs PrimFloat.abs "default" true 0%float Server.startup
              eq_refl eq_refl eq_refl) as (Hcos & _ & Hfresh).
  split; [reflexivity|]. split; [reflexivity|]. split; [reflexivity|].
  split; [exact Hcos|]. split; [reflexivity|].
  exact (proj2 (Hfresh eq_refl)).
Defined.


Lemma eval_with_sampling_failure_witness :
  let e := {| Mcp.code := -32603; Mcp.message := "Cannot evaluate expression: 1 +" |} in
  value (Server.eval_with_sampling (λ _, None) "1 +") Server.unattended tt = Raise e
  ∧ events (Server.eval_with_sampling (λ _, None) "1 +") Server.unattended tt
    = [Ev (Server.ReportProgress 0 100 "Starting evaluation") tt].
Proof.
  intros e.
  assert (Hraise : value (Server.eval_with_sampling (λ _, None) "1 +")
                     Server.unattended tt = Raise e) by (vm_compute; reflexivity).
  split; [exact Hraise|].
  exact (proj1 (eval_with_sampling_failure (λ _, None) "1 +" e Server.unattended tt
                  Hraise)).
Defined.

Lemma timeout_without_steps_witness :
  let env : Env Server.TimeoutE unit :=
    λ R e w,
      match e in Server.TimeoutE R return R * unit with
      | Server.Ctx e' => Server.unattended _ e' w
      | Server.Sleep _ => (tt, w)
      end in
  (-1 ≤ 0)%Z
  ∧ events (Server.timeout (-1)) env tt
    = [Ev (Server.Ctx (Server.ReportProgress (-10) (-10) "Completed")) tt].
Proof.
  intros env.
  assert (Hle : (-1 ≤ 0)%Z) by lia.
  split; [exact Hle|].
  exact (timeout_without_steps (-1) env tt Hle).
Defined.

Lemma server_main_unknown_name_witness :
  let args := {| Server.server_name := "NonexistentServer"; Server.transport := Server.stdio;
                 Server.host := "localhost"; Server.port := 8000;
                 Server.scenarios_data := None |} in
  let data := {| Server.servers :=
                   <["CalcServer" := {| Server.description := "A calculator" |}]> ∅ |} in
  let env : Env Server.MainE unit :=
    λ R e w,
      match e in Server.MainE R return R * unit with
      | Server.LoadScenariosData _ => (Server.LoadOk data, w)
      | Server.PrintErr _ => (tt, w)
      | Server.Run _ _ _ => (None, w)
      end in
  Server.servers data !! "NonexistentServer" = None
  ∧ events (Server.main args) env tt
    = [Ev (Server.LoadScenariosData None) (Server.LoadOk data);
       Ev (Server.PrintErr
             "Error: Server 'NonexistentServer' not found in scenarios data") tt]
  ∧ value (Server.main args) env tt = 1%Z.
Proof.
  intros args data env.
  assert (Hmiss : Server.servers data !! "NonexistentServer" = None)
    by (vm_compute; reflexivity).
  destruct (server_main_unknown_name args data env tt eq_refl Hmiss)
    as (Hevents & Hstatus & _).
  split; [exact Hmiss|]. split; [exact Hevents|]. exact Hstatus.
Defined.

Lemma run_scenario_connection_failure_witness :
  let scenario := {| Client.id := 1; Client.description := "add two numbers";
                     Client.client_ids := ["client1"] |} in
  let catalog := {| Client.scenarios := [scenario] |} in
  let refused := Client.Exception "connection refused" in
  let env : Env Client.ClientE unit :=
    λ R e w,
      match e in Client.ClientE R return R * unit with
      | Client.Print _ _ => (tt, w)
      | Client.LoadScenariosData _ => (Client.Ok catalog, w)
      | Client.Enter _ => (Client.Raised refused, w)
      | Client.OpenSession _ => (Client.Ok tt, w)
      | Client.Initialize => (Client.Ok tt, w)
      | Client.CallTool _ _ => (Client.Raised refused, w)
      | Client.Gather _ => (Client.Raised refused, w)
      | Client.ListTools => (Client.Raised refused, w)
      | Client.ReadResource _ => (Client.Raised refused, w)
      | Client.GetPrompt _ => (Client.Raised refused, w)
      end in
  Client.find_scenario 1 catalog = Some scenario
  ∧ Py.in_list "client1" ["client1"] = true
  ∧ Client.create_client_connection "sse" ["http://localhost:8000/sse"]
    = Client.Ok (Client.sse_client "http://localhost:8000/sse")
  ∧ events (Client.run_scenario (λ _, None) 1 "client1"
              ["sse"; "http://localhost:8000/sse"] catalog) env tt
    = [Ev (Client.Print false (Client.Text "Running scenario 1: add two numbers")) tt;
       Ev (Client.Enter (Client.sse_client "http://localhost:8000/sse"))
          (Client.Raised refused);
       Ev (Client.Print true
             (Client.TextExn "Error: Failed to connect or execute scenario: " refused)) tt]
  ∧ value (Client.run_scenario (λ _, None) 1 "client1"
             ["sse"; "http://localhost:8000/sse"] catalog) env tt
    = Client.Ok false.
Proof.
  intros scenario catalog refused env.
  assert (Hin : Py.in_list "client1" (Client.client_ids scenario) = true)
    by (vm_compute; reflexivity).
  destruct (run_scenario_connection_failure (λ _, None) 1 "client1" "sse"
              ["http://localhost:8000/sse"] catalog scenario
              (Client.sse_client "http://localhost:8000/sse") refused env tt
              eq_refl Hin eq_refl eq_refl) as [Hevents Hvalue].
  split; [reflexivity|]. split; [exact Hin|]. split; [reflexivity|].
  split; [exact Hevents|]. exact Hvalue.
Defined.

Lemma run_scenario_not_implemented_witness :
  let scenario := {| Client.id := 7; Client.description := "subscribe to a resource";
                     Client.client_ids := ["client1"] |} in
  let catalog := {| Client.scenarios := [scenario] |} in
  let env := Client.scripted catalog [] in
  Client.find_scenario 7 catalog = Some scenario
  ∧ Py.in_list "client1" ["client1"] = true
  ∧ (7 ∉ [1; 2; 3; 4; 5; 6; 24; 25])%Z
  ∧ events (Client.run_scenario (λ _, None) 7 "client1" ["stdio"; "test-server"] catalog)
      env tt
    = [Ev (Client.Print false (Client.Text "Running scenario 7: subscribe to a resource")) tt;
       Ev (Client.Enter (Client.stdio_client "test-server" [])) (Client.Ok tt);
       Ev (Client.OpenSession None) (Client.Ok tt);
       Ev Client.Initialize (Client.Ok tt);
       Ev (Client.Print true (Client.Text "Error: Scenario 7 not implemented")) tt]
  ∧ value (Client.run_scenario (λ _, None) 7 "client1" ["stdio"; "test-server"] catalog)
      env tt
    = Client.Ok false.
Proof.
  intros scenario catalog env.
  assert (Hin : Py.in_list "client1" (Client.client_ids scenario) = true)
    by (vm_compute; reflexivity).
  assert (Hid : (7 ∉ [1; 2; 3; 4; 5; 6; 24; 25])%Z).
  { rewrite !not_elem_of_cons. repeat split; try lia. apply not_elem_of_nil. }
  destruct (run_scenario_not_implemented (λ _, None) 7 "client1" "stdio" ["test-server"]
              catalog scenario (Client.stdio_client "test-server" []) env tt
              eq_refl Hin eq_refl Hid eq_refl eq_refl eq_refl) as [Hevents Hvalue].
  split; [reflexivity|]. split; [exact Hin|]. split; [exact Hid|].
  split; [exact Hevents|]. exact Hvalue.
Defined.

Lemma client_main_unknown_scenario_witness :
  let catalog :=
    {| Client.scenarios :=
         [{| Client.id := 1; Client.description := "add two numbers";
             Client.client_ids := ["client1"] |}] |} in
  let env := Client.scripted catalog [] in
  let args := {| Client.arg_scenario_id := 999; Client.arg_id := "client1";
                 Client.arg_scenarios_data := None;
                 Client.arg_server_desc := ["stdio"; "echo"] |} in
  Client.find_scenario 999 catalog = None
  ∧ events (Client.main (λ _, None) args) env tt
    = [Ev (Client.LoadScenariosData None) (Client.Ok catalog);
       Ev (Client.Print true (Client.Text "Error: Scenario 999 not found")) tt]
  ∧ value (Client.main (λ _, None) args) env tt = 1%Z.
Proof.
  intros catalog env args.
  destruct (client_main_unknown_scenario (λ _, None) args catalog env tt eq_refl eq_refl)
    as (Hevents & Hstatus & _).
  split; [reflexivity|]. split; [exact Hevents|]. exact Hstatus.
Defined.

Lemma client_main_without_server_desc_witness :
  let scenario := {| Client.id := 1; Client.description := "add two numbers";
                     Client.client_ids := ["client1"] |} in
  let catalog := {| Client.scenarios := [scenario] |} in
  let env := Client.scripted catalog [] in
  let args := {| Client.arg_scenario_id := 1; Client.arg_id := "client1";
                 Client.arg_scenarios_data := None; Client.arg_server_desc := [] |} in
  Client.find_scenario 1 catalog = Some scenario
  ∧ Py.in_list "client1" ["client1"] = true
  ∧ events (Client.main (λ _, None) args) env tt
    = [Ev (Client.LoadScenariosData None) (Client.Ok catalog);
       Ev (Client.Print false (Client.Text "Executing scenario 1: add two numbers")) tt;
       Ev (Client.Print false (Client.Text "Running scenario 1: add two numbers")) tt;
       Ev (Client.Print true (Client.TextExn "Error: Client failed: " Client.IndexError)) tt]
  ∧ value (Client.main (λ _, None) args) env tt = 1%Z.
Proof.
  intros scenario catalog env args.
  assert (Hin : Py.in_list (Client.arg_id args) (Client.client_ids scenario) = true)
    by (vm_compute; reflexivity).
  destruct (client_main_without_server_desc (λ _, None) args catalog scenario env tt
              eq_refl eq_refl Hin eq_refl) as [Hevents Hstatus].
  split; [reflexivity|]. split; [exact Hin|]. split; [exact Hevents|]. exact Hstatus.
Defined.
